(** * PDFTextExtractor (src/main.py): a shallow embedding and its properties

    The program is an orchestration script over three PDF libraries
    (PyPDF2, pdfplumber, PyMuPDF).  The libraries, the file system and
    the console are the outside world of the script:

    - what a library answers on a path is read from an [environment]
      (one oracle per library call the script makes, each of which may
      answer with an exception);
    - what the script does to the outside world (lines printed, the
      output directory created, output files written) is threaded
      through a [world] value by a state-and-exception monad.

    Python [str] values are modelled by [string]; characters are the
    code points below 256.

    The script is embedded twice.  The first embedding (monad [M])
    takes the console to accept every printed line and the libraries to
    raise nothing but [Exception] subclasses, so that [except Exception]
    catches whatever is raised.  The second (monad [G], from
    "Interrupts, and a console that refuses a line" on) drops both
    assumptions: [print] can raise, and a library call can meet a
    [BaseException] that no handler of the script catches.  The second
    coincides with the first under the hypothesis [calm]; what is
    stated over the first embedding holds of the script on those runs
    only. *)

From Stdlib Require Import String Ascii List Bool Arith Lia.
From stdpp Require Import base option list strings pretty gmap.

Open Scope string_scope.
Open Scope list_scope.

(** ** Python values and exceptions *)

(** The values [extract_text] and the per-library operations hand back:
    a [str] or [None]. *)
Inductive pyval : Type :=
| PyNone
| PyStr (s : string).

(** The [Exception] subclasses the script can meet.  A [BaseException]
    that is no [Exception] (KeyboardInterrupt, SystemExit) is not among
    them: see [raised]. *)
Inductive exn : Type :=
| FileNotFoundError (msg : string)
| ValueError (msg : string)
| TypeError (msg : string)
| OSError (msg : string)
| LibraryError (msg : string).

(** [str(e)], as interpolated by the f-strings of the handlers. *)
Definition exn_msg (e : exn) : string :=
  match e with
  | FileNotFoundError m | ValueError m | TypeError m
  | OSError m | LibraryError m => m
  end.

(** The outcome of a call into the outside world. *)
Definition outcome (A : Type) : Type := exn + A.

(** ** Strings: [str.strip], truthiness, [Path.stem] *)

Definition nl : string := String (ascii_of_nat 10) "".

(** [str.isspace] on the code points below 256: TAB..CR, FS..US, SPACE,
    NEL and NBSP. *)
Definition isspace (c : ascii) : bool :=
  let n := nat_of_ascii c in
  (((9 <=? n) && (n <=? 13)) || ((28 <=? n) && (n <=? 32))
   || (n =? 133) || (n =? 160))%nat.

Fixpoint lstrip (s : string) : string :=
  match s with
  | "" => ""
  | String c s' => if isspace c then lstrip s' else s
  end.

Fixpoint rstrip (s : string) : string :=
  match s with
  | "" => ""
  | String c s' =>
      match rstrip s' with
      | "" => if isspace c then "" else String c ""
      | r => String c r
      end
  end.

(** [s.strip()] *)
Definition strip (s : string) : string := rstrip (lstrip s).

(** [bool(s)] for a [str]. *)
Definition nonempty (s : string) : bool :=
  match s with "" => false | String _ _ => true end.

Definition head_space (s : string) : bool :=
  match s with "" => false | String c _ => isspace c end.

Fixpoint last_space (s : string) : bool :=
  match s with
  | "" => false
  | String c "" => isspace c
  | String _ s' => last_space s'
  end.

(** [name.rfind(c)], [None] for -1. *)
Fixpoint rfind (c : ascii) (s : string) : option nat :=
  match s with
  | "" => None
  | String d s' =>
      match rfind c s' with
      | Some i => Some (S i)
      | None => if Ascii.eqb c d then Some 0 else None
      end
  end.

(** [PurePath.stem]: the name without its last suffix; a leading dot or
    a trailing dot starts no suffix. *)
Definition stem (name : string) : string :=
  match rfind "." name with
  | Some i =>
      if ((0 <? i) && (i <? String.length name - 1))%nat
      then substring 0 i name else name
  | None => name
  end.

(** The pieces of a path between its slashes. *)
Fixpoint split_slash (cur s : string) : list string :=
  match s with
  | "" => [cur]
  | String c rest =>
      if Ascii.eqb c "/" then cur :: split_slash "" rest
      else split_slash (cur +:+ String c "") rest
  end.

(** The root pathlib reads off a POSIX path: two leading slashes are
    kept, one or more than two are one. *)
Definition posix_root (s : string) : string :=
  match s with
  | String "/" (String "/" (String "/" _)) => "/"
  | String "/" (String "/" _) => "//"
  | String "/" _ => "/"
  | _ => ""
  end.

(** The components pathlib keeps: empty pieces and [.] are dropped. *)
Fixpoint kept_components (pieces : list string) : list string :=
  match pieces with
  | [] => []
  | c :: rest =>
      if String.eqb c "" || String.eqb c "."
      then kept_components rest else c :: kept_components rest
  end.

Fixpoint with_slashes (components : list string) : string :=
  match components with
  | [] => ""
  | c :: rest => c +:+ "/" +:+ with_slashes rest
  end.

(** What [str(Path(d) / n)] puts before the file name [n]. *)
Definition dir_prefix (d : string) : string :=
  posix_root d +:+ with_slashes (kept_components (split_slash "" d)).

(** [str(Path(d) / n)] for a directory [d] and a file name [n], as
    pathlib's POSIX flavour prints it. *)
Definition path_join (d n : string) : string := dir_prefix d +:+ n.

(** ** The outside world *)

(** What [PyPDF2.PdfReader] shows of a document: [len(reader.pages)]
    and [reader.pages[i].extract_text()], and [reader.metadata]
    ([None] when the trailer has no Info dictionary). *)
Record pdf_reader : Type := {
  rd_pages : outcome (list (outcome pyval));
  rd_metadata : outcome (option (gmap string string))
}.

(** What [fitz.open] shows of a document: [doc.load_page(i).get_text()]
    for [i < len(doc)], and whether [doc.close()] raises. *)
Record fitz_doc : Type := {
  fz_pages : list (outcome pyval);
  fz_close : option exn
}.

Record environment : Type := {
  (** [os.path.exists] *)
  path_exists : string -> bool;
  (** the names of [Path(directory).glob("*.pdf")] *)
  glob_pdf : string -> list string;
  (** [open(path, 'rb')] followed by [PyPDF2.PdfReader(file)] *)
  pypdf2_open : string -> outcome pdf_reader;
  (** [pdfplumber.open(path)], [pdf.pages] and [page.extract_text()] *)
  pdfplumber_open : string -> outcome (list (outcome pyval));
  (** [fitz.open(path)] *)
  fitz_open : string -> outcome fitz_doc;
  (** [os.makedirs(path, exist_ok=True)] *)
  makedirs_error : string -> option exn;
  (** [open(path, 'w', encoding='utf-8')] *)
  open_w_error : string -> option exn;
  (** [f.write(text)] on the file opened at [path], and its closing:
      the exception raised, if any, with what the file then holds *)
  write_error : string -> string -> option (exn * string)
}.

(** What the script leaves behind: the lines printed, the paths
    [os.makedirs] was asked for and made (the directories it makes on
    the way to such a path are not listed), and the content of the
    files written, by the path they were opened with. *)
Record world : Type := {
  stdout : list string;
  dirs : gset string;
  files : gmap string string
}.

Definition emit (out : list string) (w : world) : world :=
  {| stdout := stdout w ++ out; dirs := dirs w; files := files w |}.

(** ** State and exceptions *)

Definition M (S A : Type) : Type := S -> outcome A * S.

Definition ret {S A} (a : A) : M S A := fun s => (inr a, s).

Definition raise {S A} (e : exn) : M S A := fun s => (inl e, s).

Definition bind {S A B} (m : M S A) (k : A -> M S B) : M S B :=
  fun s =>
    match m s with
    | (inr a, s') => k a s'
    | (inl e, s') => (inl e, s')
    end.

(** [try: body except Exception as e: handler(e)]; what the body did to
    the state before it raised stays done. *)
Definition try_except {S A} (body : M S A) (handler : exn -> M S A) : M S A :=
  fun s =>
    match body s with
    | (inr a, s') => (inr a, s')
    | (inl e, s') => handler e s'
    end.

(** A call into the outside world that changes nothing. *)
Definition call {S A} (o : outcome A) : M S A := fun s => (o, s).

Notation "'let*' x ':=' m 'in' k" := (bind m (fun x => k))
  (at level 10, x name, m at level 100, k at level 200,
   format "'[v' 'let*'  x  ':='  m  'in' '/' k ']'").

(** [print(line)] on a console that takes the line; [print_g] is the
    call on a console that may refuse it. *)
Definition print (line : string) : M world unit :=
  fun w => (inr tt, emit [line] w).

(** ** The three per-library operations *)

Section Extractor.

Variable env : environment.

(** [for ...: text += page.extract_text() + "\n"] as PyPDF2 and PyMuPDF
    are driven: a page whose text is [None] makes [None + "\n"] raise
    TypeError. *)
Fixpoint concat_pages (pages : list (outcome pyval)) (text : string)
  : outcome string :=
  match pages with
  | [] => inr text
  | inl e :: _ => inl e
  | inr PyNone :: _ =>
      inl (TypeError "unsupported operand type(s) for +: 'NoneType' and 'str'")
  | inr (PyStr t) :: rest => concat_pages rest (text +:+ t +:+ nl)
  end.

(** The loop of pdfplumber: [if page_text: text += page_text + "\n"];
    a page whose text is [None] or empty is passed over. *)
Fixpoint concat_truthy_pages (pages : list (outcome pyval)) (text : string)
  : outcome string :=
  match pages with
  | [] => inr text
  | inl e :: _ => inl e
  | inr PyNone :: rest => concat_truthy_pages rest text
  | inr (PyStr t) :: rest =>
      if nonempty t
      then concat_truthy_pages rest (text +:+ t +:+ nl)
      else concat_truthy_pages rest text
  end.

(** The [try] blocks of the three operations. *)
Definition pypdf2_body (pdf_path : string) : M world pyval :=
  let* pdf_reader := call (pypdf2_open env pdf_path) in
  let* pages := call (rd_pages pdf_reader) in
  let* text := call (concat_pages pages "") in
  ret (PyStr (strip text)).

Definition pdfplumber_body (pdf_path : string) : M world pyval :=
  let* pages := call (pdfplumber_open env pdf_path) in
  let* text := call (concat_truthy_pages pages "") in
  ret (PyStr (strip text)).

Definition pymupdf_body (pdf_path : string) : M world pyval :=
  let* doc := call (fitz_open env pdf_path) in
  let* text := call (concat_pages (fz_pages doc) "") in
  let* _ := call (match fz_close doc with
                  | Some e => inl e
                  | None => inr tt
                  end) in
  ret (PyStr (strip text)).

Definition extract_with_pypdf2 (pdf_path : string) : M world pyval :=
  try_except (pypdf2_body pdf_path)
    (fun e =>
       let* _ := print ("Error with PyPDF2: " +:+ exn_msg e) in
       ret PyNone).

Definition extract_with_pdfplumber (pdf_path : string) : M world pyval :=
  try_except (pdfplumber_body pdf_path)
    (fun e =>
       let* _ := print ("Error with pdfplumber: " +:+ exn_msg e) in
       ret PyNone).

Definition extract_with_pymupdf (pdf_path : string) : M world pyval :=
  try_except (pymupdf_body pdf_path)
    (fun e =>
       let* _ := print ("Error with PyMuPDF: " +:+ exn_msg e) in
       ret PyNone).

(** ** [extract_text] *)

(** [self.supported_methods], as [__init__] sets it. *)
Definition supported_methods : list string := ["pypdf2"; "pdfplumber"; "pymupdf"].

(** The [methods] list of the auto mode, in the order it is written. *)
Definition methods : list (string * (string -> M world pyval)) :=
  [ ("pdfplumber", extract_with_pdfplumber);
    ("pymupdf", extract_with_pymupdf);
    ("pypdf2", extract_with_pypdf2) ].

(** [text and text.strip()] as a condition. *)
Definition text_and_stripped (text : pyval) : bool :=
  match text with
  | PyNone => false
  | PyStr s => nonempty s && nonempty (strip s)
  end.

Fixpoint try_methods (ms : list (string * (string -> M world pyval)))
    (pdf_path : string) : M world pyval :=
  match ms with
  | [] =>
      let* _ := print "All methods failed to extract text" in
      ret (PyStr "")
  | (method_name, method_func) :: rest =>
      let* _ := print ("Trying " +:+ method_name +:+ "...") in
      let* text := method_func pdf_path in
      if text_and_stripped text
      then
        let* _ := print ("Successfully extracted text using " +:+ method_name) in
        ret text
      else try_methods rest pdf_path
  end.

Definition extract_text (pdf_path method : string) : M world pyval :=
  if negb (path_exists env pdf_path)
  then raise (FileNotFoundError ("PDF file not found: " +:+ pdf_path))
  else if String.eqb method "auto" then try_methods methods pdf_path
  else if String.eqb method "pypdf2" then extract_with_pypdf2 pdf_path
  else if String.eqb method "pdfplumber" then extract_with_pdfplumber pdf_path
  else if String.eqb method "pymupdf" then extract_with_pymupdf pdf_path
  else raise (ValueError ("Unsupported method: " +:+ method)).

(** ** [extract_from_directory] *)

(** The function's state: the outside world and its local dict
    [results], which the [try] body and the handler both assign to. *)
Definition batch : Type := world * gmap string pyval.

Definition in_world {A} (m : M world A) : M batch A :=
  fun '(w, results) =>
    match m w with (r, w') => (r, (w', results)) end.

(** [results[name] = text] *)
Definition set_result (name : string) (text : pyval) : M batch unit :=
  fun '(w, results) => (inr tt, (w, <[name := text]> results)).

Definition set_file (path content : string) : M world unit :=
  fun w => (inr tt, {| stdout := stdout w; dirs := dirs w;
                       files := <[path := content]> (files w) |}).

(** [with open(output_file, 'w', encoding='utf-8') as f: f.write(text)];
    opening in mode ['w'] creates or empties the file.  A write (or the
    closing flush) that raises leaves in the file whatever part of the
    text had reached it: the [remains] the oracle gives. *)
Definition write_text (output_file : string) (text : pyval) : M world unit :=
  match open_w_error env output_file with
  | Some e => raise e
  | None =>
      let* _ := set_file output_file "" in
      match text with
      | PyNone => raise (TypeError "write() argument must be str, not None")
      | PyStr s =>
          match write_error env output_file s with
          | Some (e, remains) =>
              let* _ := set_file output_file remains in
              raise e
          | None => set_file output_file s
          end
      end
  end.

(** [os.makedirs(output_dir, exist_ok=True)]: the path asked for is
    recorded in [dirs]; the missing parents the call makes as well are
    not. *)
Definition makedirs (output_dir : string) : M world unit :=
  match makedirs_error env output_dir with
  | Some e => raise e
  | None =>
      fun w => (inr tt, {| stdout := stdout w;
                           dirs := {[ output_dir ]} ∪ dirs w;
                           files := files w |})
  end.

(** [if output_dir:] with [output_dir] a [str] or [None]. *)
Definition configured (output_dir : option string) : option string :=
  match output_dir with
  | Some d => if nonempty d then Some d else None
  | None => None
  end.

Definition output_path (output_dir name : string) : string :=
  path_join output_dir (stem name +:+ ".txt").

(** The [try] block of the loop. *)
Definition process_body (directory_path : string) (output_dir : option string)
    (name : string) : M batch unit :=
  let* text := in_world (extract_text (path_join directory_path name) "auto") in
  let* _ := set_result name text in
  match configured output_dir with
  | Some d =>
      let output_file := output_path d name in
      let* _ := in_world (write_text output_file text) in
      in_world (print ("Saved to: " +:+ output_file))
  | None => ret tt
  end.

(** One turn of [for pdf_file in pdf_files:]. *)
Definition process_file (directory_path : string) (output_dir : option string)
    (name : string) : M batch unit :=
  let* _ := in_world (print ("Processing: " +:+ name)) in
  try_except (process_body directory_path output_dir name)
    (fun e =>
       let* _ := in_world (print ("Failed to process " +:+ name +:+ ": "
                                   +:+ exn_msg e)) in
       set_result name (PyStr "")).

Fixpoint process_files (directory_path : string) (output_dir : option string)
    (pdf_files : list string) : M batch unit :=
  match pdf_files with
  | [] => ret tt
  | pdf_file :: rest =>
      let* _ := process_file directory_path output_dir pdf_file in
      process_files directory_path output_dir rest
  end.

(** [results = {}], the statements run with it, [return results]. *)
Definition with_results (m : M batch unit) : M world (gmap string pyval) :=
  fun w =>
    match m (w, ∅) with
    | (inl e, (w', _)) => (inl e, w')
    | (inr _, (w', results)) => (inr results, w')
    end.

Definition extract_from_directory (directory_path : string)
    (output_dir : option string) : M world (gmap string pyval) :=
  let pdf_files := glob_pdf env directory_path in
  let* _ := match configured output_dir with
            | Some d => makedirs d
            | None => ret tt
            end in
  with_results (process_files directory_path output_dir pdf_files).

(** ** [get_pdf_info] *)

Record pdf_info : Type := {
  num_pages : nat;
  title : string;
  author : string;
  subject : string;
  creator : string;
  producer : string
}.

(** [metadata.get(key, 'N/A') if metadata else 'N/A']; an empty
    dictionary is falsy. *)
Definition info_field (metadata : option (gmap string string)) (key : string)
  : string :=
  match metadata with
  | Some d => if decide (d = ∅) then "N/A" else default "N/A" (d !! key)
  | None => "N/A"
  end.

Definition get_pdf_info (pdf_path : string) : M world (option pdf_info) :=
  try_except
    (let* pdf_reader := call (pypdf2_open env pdf_path) in
     let* pages := call (rd_pages pdf_reader) in
     let* metadata := call (rd_metadata pdf_reader) in
     ret (Some {| num_pages := length pages;
                  title := info_field metadata "/Title";
                  author := info_field metadata "/Author";
                  subject := info_field metadata "/Subject";
                  creator := info_field metadata "/Creator";
                  producer := info_field metadata "/Producer" |}))
    (fun e =>
       let* _ := print ("Error getting PDF info: " +:+ exn_msg e) in
       ret None).

End Extractor.

(** ** [main] *)

Definition is_lower (c : ascii) : bool :=
  let n := nat_of_ascii c in ((97 <=? n) && (n <=? 122))%nat.

Definition is_upper (c : ascii) : bool :=
  let n := nat_of_ascii c in ((65 <=? n) && (n <=? 90))%nat.

(** [str.title()] on ASCII text: the first letter of every run of
    letters in upper case, its other letters in lower case. *)
Fixpoint title_from (in_word : bool) (s : string) : string :=
  match s with
  | "" => ""
  | String c rest =>
      if is_lower c
      then String (if in_word then c else ascii_of_nat (nat_of_ascii c - 32))
             (title_from true rest)
      else if is_upper c
      then String (if in_word then ascii_of_nat (nat_of_ascii c + 32) else c)
             (title_from true rest)
      else String c (title_from false rest)
  end.

Definition py_title (s : string) : string := title_from false s.









(** ** Interrupts, and a console that refuses a line

    The definitions above take the console to accept every line and the
    libraries to raise nothing but [Exception]s.  The ones below drop
    both assumptions: [print] raises when the console cannot take the
    line (UnicodeEncodeError on a name it cannot encode), and a library
    call can meet a [BaseException] that is no [Exception]
    (KeyboardInterrupt, SystemExit), which [except Exception] lets
    through. *)

Inductive raised : Type :=
| Exc (e : exn)
| Base (name : string).

Record setting : Type := {
  libs : environment;
  (** [print(line)]: the exception of a console that cannot take it *)
  console_error : string -> option exn;
  (** the [BaseException] met inside a library, by library and path *)
  interrupt : string -> string -> option string
}.

Definition G (S A : Type) : Type := S -> (raised + A) * S.

Definition ret_g {S A} (a : A) : G S A := fun s => (inr a, s).

Definition raise_g {S A} (r : raised) : G S A := fun s => (inl r, s).

Definition bind_g {S A B} (m : G S A) (k : A -> G S B) : G S B :=
  fun s =>
    match m s with
    | (inr a, s') => k a s'
    | (inl r, s') => (inl r, s')
    end.

(** [try: body except Exception as e: handler(e)] *)
Definition try_except_g {S A} (body : G S A) (handler : exn -> G S A) : G S A :=
  fun s =>
    match body s with
    | (inr a, s') => (inr a, s')
    | (inl (Exc e), s') => handler e s'
    | (inl (Base b), s') => (inl (Base b), s')
    end.

(** A piece of the script that neither prints nor calls a library. *)
Definition lift {S A} (m : M S A) : G S A :=
  fun s =>
    match m s with
    | (inr a, s') => (inr a, s')
    | (inl e, s') => (inl (Exc e), s')
    end.

Notation "'let+' x ':=' m 'in' k" := (bind_g m (fun x => k))
  (at level 10, x name, m at level 100, k at level 200,
   format "'[v' 'let+'  x  ':='  m  'in' '/' k ']'").

Section Interruptible.

Variable st : setting.

Definition print_g (line : string) : G world unit :=
  match console_error st line with
  | Some e => raise_g (Exc e)
  | None => lift (print line)
  end.

(** A [try] block of library calls; the block changes nothing, so an
    interrupt inside it shows only as the exception. *)
Definition library_calls (library pdf_path : string) (body : M world pyval)
  : G world pyval :=
  match interrupt st library pdf_path with
  | Some b => raise_g (Base b)
  | None => lift body
  end.

Definition extract_with_pypdf2_g (pdf_path : string) : G world pyval :=
  try_except_g
    (library_calls "pypdf2" pdf_path (pypdf2_body (libs st) pdf_path))
    (fun e =>
       let+ _ := print_g ("Error with PyPDF2: " +:+ exn_msg e) in
       ret_g PyNone).

Definition extract_with_pdfplumber_g (pdf_path : string) : G world pyval :=
  try_except_g
    (library_calls "pdfplumber" pdf_path (pdfplumber_body (libs st) pdf_path))
    (fun e =>
       let+ _ := print_g ("Error with pdfplumber: " +:+ exn_msg e) in
       ret_g PyNone).

Definition extract_with_pymupdf_g (pdf_path : string) : G world pyval :=
  try_except_g
    (library_calls "pymupdf" pdf_path (pymupdf_body (libs st) pdf_path))
    (fun e =>
       let+ _ := print_g ("Error with PyMuPDF: " +:+ exn_msg e) in
       ret_g PyNone).

Definition methods_g : list (string * (string -> G world pyval)) :=
  [ ("pdfplumber", extract_with_pdfplumber_g);
    ("pymupdf", extract_with_pymupdf_g);
    ("pypdf2", extract_with_pypdf2_g) ].

Fixpoint try_methods_g (ms : list (string * (string -> G world pyval)))
    (pdf_path : string) : G world pyval :=
  match ms with
  | [] =>
      let+ _ := print_g "All methods failed to extract text" in
      ret_g (PyStr "")
  | (method_name, method_func) :: rest =>
      let+ _ := print_g ("Trying " +:+ method_name +:+ "...") in
      let+ text := method_func pdf_path in
      if text_and_stripped text
      then
        let+ _ := print_g ("Successfully extracted text using " +:+ method_name) in
        ret_g text
      else try_methods_g rest pdf_path
  end.

Definition extract_text_g (pdf_path method : string) : G world pyval :=
  if negb (path_exists (libs st) pdf_path)
  then raise_g (Exc (FileNotFoundError ("PDF file not found: " +:+ pdf_path)))
  else if String.eqb method "auto" then try_methods_g methods_g pdf_path
  else if String.eqb method "pypdf2" then extract_with_pypdf2_g pdf_path
  else if String.eqb method "pdfplumber" then extract_with_pdfplumber_g pdf_path
  else if String.eqb method "pymupdf" then extract_with_pymupdf_g pdf_path
  else raise_g (Exc (ValueError ("Unsupported method: " +:+ method))).

Definition in_world_g {A} (m : G world A) : G batch A :=
  fun '(w, results) =>
    match m w with (r, w') => (r, (w', results)) end.

Definition process_body_g (directory_path : string) (output_dir : option string)
    (name : string) : G batch unit :=
  let+ text := in_world_g (extract_text_g (path_join directory_path name) "auto") in
  let+ _ := lift (set_result name text) in
  match configured output_dir with
  | Some d =>
      let output_file := output_path d name in
      let+ _ := in_world_g (lift (write_text (libs st) output_file text)) in
      in_world_g (print_g ("Saved to: " +:+ output_file))
  | None => ret_g tt
  end.

Definition process_file_g (directory_path : string) (output_dir : option string)
    (name : string) : G batch unit :=
  let+ _ := in_world_g (print_g ("Processing: " +:+ name)) in
  try_except_g (process_body_g directory_path output_dir name)
    (fun e =>
       let+ _ := in_world_g (print_g ("Failed to process " +:+ name +:+ ": "
                                      +:+ exn_msg e)) in
       lift (set_result name (PyStr ""))).

Fixpoint process_files_g (directory_path : string) (output_dir : option string)
    (pdf_files : list string) : G batch unit :=
  match pdf_files with
  | [] => ret_g tt
  | pdf_file :: rest =>
      let+ _ := process_file_g directory_path output_dir pdf_file in
      process_files_g directory_path output_dir rest
  end.

Definition with_results_g (m : G batch unit) : G world (gmap string pyval) :=
  fun w =>
    match m (w, ∅) with
    | (inl r, (w', _)) => (inl r, w')
    | (inr _, (w', results)) => (inr results, w')
    end.

Definition extract_from_directory_g (directory_path : string)
    (output_dir : option string) : G world (gmap string pyval) :=
  let pdf_files := glob_pdf (libs st) directory_path in
  let+ _ := match configured output_dir with
            | Some d => lift (makedirs (libs st) d)
            | None => ret_g tt
            end in
  with_results_g (process_files_g directory_path output_dir pdf_files).

End Interruptible.

(** Nothing is refused and nothing interrupts. *)
Definition calm (st : setting) : Prop :=
  (forall line, console_error st line = None)
  /\ (forall library pdf_path, interrupt st library pdf_path = None).

(** What the library calls of a [try] block give, read off the
    library alone: the text before it is stripped, or the exception. *)
Definition pypdf2_outcome (env : environment) (pdf_path : string)
  : outcome string :=
  match pypdf2_open env pdf_path with
  | inl e => inl e
  | inr pdf_reader =>
      match rd_pages pdf_reader with
      | inl e => inl e
      | inr pages => concat_pages pages ""
      end
  end.

Definition pdfplumber_outcome (env : environment) (pdf_path : string)
  : outcome string :=
  match pdfplumber_open env pdf_path with
  | inl e => inl e
  | inr pages => concat_truthy_pages pages ""
  end.

Definition pymupdf_outcome (env : environment) (pdf_path : string)
  : outcome string :=
  match fitz_open env pdf_path with
  | inl e => inl e
  | inr doc =>
      match concat_pages (fz_pages doc) "" with
      | inl e => inl e
      | inr text =>
          match fz_close doc with
          | Some e => inl e
          | None => inr text
          end
      end
  end.

(** What the guarded operation returns for an outcome. *)
Definition value_of (o : outcome string) : pyval :=
  match o with
  | inr text => PyStr (strip text)
  | inl _ => PyNone
  end.

(** The stripped text of an outcome, empty when the library raised. *)
Definition stripped_text (o : outcome string) : string :=
  match o with
  | inr text => strip text
  | inl _ => ""
  end.

(** The first of the three stripped texts that is not empty, in the
    order pdfplumber, PyMuPDF, PyPDF2; empty when all are. *)
Definition first_text (env : environment) (pdf_path : string) : string :=
  let s1 := stripped_text (pdfplumber_outcome env pdf_path) in
  let s2 := stripped_text (pymupdf_outcome env pdf_path) in
  let s3 := stripped_text (pypdf2_outcome env pdf_path) in
  if nonempty s1 then s1 else if nonempty s2 then s2 else s3.

(** ** Vocabulary of the statements *)

(** [m] returns [v] and prints the lines [out], whatever the world it is
    run in, and changes nothing else. *)
Definition runs_to {A} (m : M world A) (v : A) (out : list string) : Prop :=
  forall w, m w = (inr v, emit out w).

(** A string that neither starts nor ends with whitespace. *)
Definition trimmed (s : string) : Prop :=
  head_space s = false /\ last_space s = false.

(** The [try] blocks only read the document: they end in the world they
    started in, with a stripped text or with the exception met. *)
Definition reads_only (body : M world pyval) : Prop :=
  (exists t, forall w, body w = (inr (PyStr (strip t)), w))
  \/ (exists e, forall w, body w = (inl e, w)).

(** What an operation built as [try: body except: print; return None]
    does, given that its body only reads. *)
Definition strategy_run (m : M world pyval) (label : string) : Prop :=
  (exists t, runs_to m (PyStr (strip t)) [])
  \/ (exists e, runs_to m PyNone [label +:+ exn_msg e]).

(** The line the auto mode prints when a strategy has succeeded. *)
Definition success_line (method_name : string) : string :=
  "Successfully extracted text using " +:+ method_name.

(** The line the auto mode prints before it calls a strategy. *)
Definition trying_line (method_name : string) : string :=
  "Trying " +:+ method_name +:+ "...".

(** The strategies of [ms] are all tried on [pdf_path] and passed over:
    each returns [None] or a text that is empty once trimmed; [outs] is
    what the auto mode prints meanwhile. *)
Inductive skipped (pdf_path : string)
  : list (string * (string -> M world pyval)) -> list string -> Prop :=
| skipped_nil : skipped pdf_path [] []
| skipped_cons name f rest v out outs :
    runs_to (f pdf_path) v out ->
    text_and_stripped v = false ->
    skipped pdf_path rest outs ->
    skipped pdf_path ((name, f) :: rest) (trying_line name :: out ++ outs).

(** One turn of the batch loop, as seen from outside: the lines [out]
    are printed, the written files change by [touch], the directories
    stay, and [results[name]] becomes the string [entry]. *)
Definition turn (step : M batch unit) (name entry : string)
    (out : list string) (touch : gmap string string -> gmap string string)
  : Prop :=
  forall w results,
    step (w, results) =
    (inr tt, ({| stdout := stdout w ++ out; dirs := dirs w;
                 files := touch (files w) |},
              <[name := PyStr entry]> results)).


(** The output directory is not asked for, or can be created. *)
Definition output_ready (env : environment) (output_dir : option string)
  : Prop :=
  forall d, configured output_dir = Some d -> makedirs_error env d = None.

(** The line the batch prints when a document has failed. *)
Definition failure_line (name : string) (e : exn) : string :=
  "Failed to process " +:+ name +:+ ": " +:+ exn_msg e.

(** The answers of a library all of whose pages are read without an
    exception. *)
Definition read_pages (texts : list pyval) : list (outcome pyval) :=
  map inr texts.

(** The texts of [texts], each followed by a newline, in order. *)
Fixpoint lines_of (texts : list string) : string :=
  match texts with
  | [] => ""
  | t :: rest => t +:+ nl +:+ lines_of rest
  end.

(** The page texts that are truthy: neither [None] nor empty. *)
Fixpoint truthy_texts (texts : list pyval) : list string :=
  match texts with
  | [] => []
  | PyNone :: rest => truthy_texts rest
  | PyStr t :: rest => if nonempty t then t :: truthy_texts rest
                       else truthy_texts rest
  end.

(** The page texts when every page has one. *)
Definition str_pages (texts : list string) : list pyval := map PyStr texts.

(** The message of the TypeError that [None + "\n"] raises. *)
Definition none_plus_str : string :=
  "unsupported operand type(s) for +: 'NoneType' and 'str'".


(** ** Sample worlds *)

Module Samples.

Definition blank_world : world := {| stdout := []; dirs := ∅; files := ∅ |}.

(** A library answer: one page per string. *)
Definition pages_of (texts : list string) : list (outcome pyval) :=
  map (fun t => inr (PyStr t)) texts.

Definition unreadable {A} : outcome A := inl (LibraryError "EOF marker not found").

(** An environment in which every listed path exists, [listing] is what
    the glob of any directory shows, and the three libraries answer as
    given; the file system refuses nothing. *)
Definition sample (present : list string) (listing : list string)
    (plumber : string -> outcome (list (outcome pyval)))
    (mupdf : string -> outcome fitz_doc)
    (pypdf2 : string -> outcome pdf_reader) : environment :=
  {| path_exists := fun p => bool_decide (p ∈ present);
     glob_pdf := fun _ => listing;
     pypdf2_open := pypdf2;
     pdfplumber_open := plumber;
     fitz_open := mupdf;
     makedirs_error := fun _ => None;
     open_w_error := fun _ => None;
     write_error := fun _ _ => None |}.

Definition reader_of (texts : list string)
    (metadata : option (gmap string string)) : pdf_reader :=
  {| rd_pages := inr (pages_of texts); rd_metadata := inr metadata |}.

Definition doc_of (texts : list string) : fitz_doc :=
  {| fz_pages := pages_of texts; fz_close := None |}.

(** One document, [docs/a.pdf], in the directory [docs]. *)
Definition one_doc := sample ["docs/a.pdf"] ["a.pdf"].

(** pdfplumber reads the text at once. *)
Definition primary_env : environment :=
  one_doc (fun _ => inr (pages_of ["hi"])) (fun _ => unreadable)
    (fun _ => unreadable).

(** pdfplumber cannot read the document, PyMuPDF can. *)
Definition fallback_env : environment :=
  one_doc (fun _ => unreadable) (fun _ => inr (doc_of ["hi"]))
    (fun _ => unreadable).

(** A corrupted document: no library can read it. *)
Definition corrupt_env : environment :=
  one_doc (fun _ => unreadable) (fun _ => unreadable) (fun _ => unreadable).


(** A dangling link: the glob lists [a.pdf], the path does not exist. *)
Definition dangling_env : environment :=
  sample [] ["a.pdf"] (fun _ => unreadable) (fun _ => unreadable)
    (fun _ => unreadable).



(** A minimal document whose only text operand is [" hi"]. *)
Definition padded_env : environment :=
  one_doc (fun _ => inr (pages_of [" hi"])) (fun _ => inr (doc_of [" hi"]))
    (fun _ => inr (reader_of [" hi"] None)).

(** A document with a page whose text is [None] and, as pdfplumber
    sees it, one more page whose text is empty. *)
Definition gap_env : environment :=
  one_doc
    (fun _ => inr (read_pages [PyStr "one"; PyNone; PyStr ""; PyStr "four"]))
    (fun _ => inr {| fz_pages := read_pages [PyStr "one"; PyNone; PyStr "four"];
                     fz_close := None |})
    (fun _ => unreadable).

(** A directory without any PDF. *)
Definition empty_dir_env : environment :=
  sample [] [] (fun _ => unreadable) (fun _ => unreadable) (fun _ => unreadable).

(** [example.pdf] is there and PyPDF2 reads it; there is no [./pdfs]. *)
Definition example_env : environment :=
  sample ["example.pdf"] []
    (fun _ => unreadable) (fun _ => unreadable)
    (fun _ => inr (reader_of ["hi"] None)).

(** The same, on a full disk. *)
Definition example_disk_full_env : environment :=
  {| path_exists := path_exists example_env;
     glob_pdf := glob_pdf example_env;
     pypdf2_open := pypdf2_open example_env;
     pdfplumber_open := pdfplumber_open example_env;
     fitz_open := fitz_open example_env;
     makedirs_error := fun _ => None;
     open_w_error := fun _ => None;
     write_error := fun _ _ => Some (OSError "No space left on device", "") |}.


(** Three pages, as PyPDF2 and PyMuPDF read them. *)
Definition chapters_env : environment :=
  one_doc (fun _ => unreadable)
    (fun _ => inr (doc_of [" one"; "two "; "three "]))
    (fun _ => inr (reader_of [" one"; "two "; "three "] None)).

(** A world in which two files are there already. *)
Definition used_world : world :=
  {| stdout := []; dirs := ∅;
     files := <["notes.txt" := "keep"]> (<["out/old.txt" := "old"]> ∅) |}.

(** The libraries of [env], never interrupted, and a console that
    takes every line. *)
Definition quiet (env : environment) : setting :=
  {| libs := env; console_error := fun _ => None; interrupt := fun _ _ => None |}.

(** Ctrl-C arrives while a library is at work. *)
Definition interrupted (env : environment) : setting :=
  {| libs := env; console_error := fun _ => None;
     interrupt := fun _ _ => Some "KeyboardInterrupt" |}.

(** A console that can encode no line (UnicodeEncodeError is a
    ValueError). *)
Definition deaf (env : environment) : setting :=
  {| libs := env;
     console_error := fun _ => Some (ValueError "'ascii' codec can't encode character");
     interrupt := fun _ _ => None |}.


(** A document with two pages and an Info dictionary. *)
Definition report_env : environment :=
  one_doc (fun _ => unreadable) (fun _ => unreadable)
    (fun _ => inr (reader_of ["one"; "two"]
                     (Some (<["/Title" := "Report"]>
                              (<["/Author" := "Ann"]>
                                 (<["/Producer" := "LaTeX"]> ∅)))))).

End Samples.

(** * Properties *)

(** ** [strip] *)

Lemma lstrip_head s : head_space (lstrip s) = false.
Proof.
  induction s as [|c s IH]; simpl; [reflexivity|].
  destruct (isspace c) eqn:E; [exact IH|]. simpl. exact E.
Qed.

Lemma rstrip_last s : last_space (rstrip s) = false.
Proof.
  induction s as [|c s IH]; simpl; [reflexivity|].
  destruct (rstrip s) as [|d r] eqn:E.
  - destruct (isspace c) eqn:Ec; simpl; [reflexivity|exact Ec].
  - exact IH.
Qed.

Lemma rstrip_head s : head_space s = false -> head_space (rstrip s) = false.
Proof.
  destruct s as [|c s]; simpl; [reflexivity|]. intros Hc.
  destruct (rstrip s); [rewrite Hc|]; simpl; assumption.
Qed.

Lemma lstrip_id s : head_space s = false -> lstrip s = s.
Proof. destruct s as [|c s]; simpl; [reflexivity|]. intros ->. reflexivity. Qed.

Lemma rstrip_id s : last_space s = false -> rstrip s = s.
Proof.
  induction s as [|c s IH]; [reflexivity|].
  destruct s as [|d s'].
  - simpl. intros ->. reflexivity.
  - intros H. change (last_space (String d s') = false) in H.
    cbn [rstrip]. cbn [rstrip] in IH. rewrite (IH H). reflexivity.
Qed.

Lemma strip_trimmed s : trimmed (strip s).
Proof.
  split; unfold strip.
  - apply rstrip_head, lstrip_head.
  - apply rstrip_last.
Qed.

Lemma strip_idem s : strip (strip s) = strip s.
Proof.
  destruct (strip_trimmed s) as [Hh Hl].
  unfold strip at 1. rewrite (lstrip_id _ Hh). apply rstrip_id, Hl.
Qed.




Lemma text_and_stripped_strip t :
  text_and_stripped (PyStr (strip t)) = nonempty (strip t).
Proof. simpl. rewrite strip_idem. apply andb_diag. Qed.

(** ** The monad *)

Lemma emit_nil w : emit [] w = w.
Proof. destruct w. unfold emit. simpl. rewrite app_nil_r. reflexivity. Qed.

Lemma emit_emit out1 out2 w : emit out2 (emit out1 w) = emit (out1 ++ out2) w.
Proof. unfold emit. simpl. rewrite app_assoc. reflexivity. Qed.

Ltac run_monad :=
  unfold bind, call, ret, raise, try_except, print; simpl.

(** ** The per-library operations *)

Section Strategies.

Variable env : environment.

Lemma pypdf2_body_reads p : reads_only (pypdf2_body env p).
Proof.
  unfold reads_only, pypdf2_body. run_monad.
  destruct (pypdf2_open env p) as [e|rd]; [right; eauto|].
  destruct (rd_pages rd) as [e|pages]; [right; eauto|].
  destruct (concat_pages pages "") as [e|t]; [right; eauto|left; eauto].
Qed.

Lemma pdfplumber_body_reads p : reads_only (pdfplumber_body env p).
Proof.
  unfold reads_only, pdfplumber_body. run_monad.
  destruct (pdfplumber_open env p) as [e|pages]; [right; eauto|].
  destruct (concat_truthy_pages pages "") as [e|t]; [right; eauto|left; eauto].
Qed.

Lemma pymupdf_body_reads p : reads_only (pymupdf_body env p).
Proof.
  unfold reads_only, pymupdf_body. run_monad.
  destruct (fitz_open env p) as [e|doc]; [right; eauto|].
  destruct (concat_pages (fz_pages doc) "") as [e|t]; [right; eauto|].
  destruct (fz_close doc) as [e|]; [right; eauto|left; eauto].
Qed.

Lemma guarded_run body label :
  reads_only body ->
  strategy_run
    (try_except body (fun e => let* _ := print (label +:+ exn_msg e) in ret PyNone))
    label.
Proof.
  intros [[t Ht]|[e He]]; [left; exists t|right; exists e];
    intros w; run_monad.
  - rewrite Ht, emit_nil. reflexivity.
  - rewrite He. reflexivity.
Qed.

Lemma extract_with_pypdf2_run p :
  strategy_run (extract_with_pypdf2 env p) "Error with PyPDF2: ".
Proof. apply guarded_run, pypdf2_body_reads. Qed.

Lemma extract_with_pdfplumber_run p :
  strategy_run (extract_with_pdfplumber env p) "Error with pdfplumber: ".
Proof. apply guarded_run, pdfplumber_body_reads. Qed.

Lemma extract_with_pymupdf_run p :
  strategy_run (extract_with_pymupdf env p) "Error with PyMuPDF: ".
Proof. apply guarded_run, pymupdf_body_reads. Qed.

End Strategies.

(** ** The auto mode *)

Section Auto.

Variable env : environment.

Lemma try_methods_cons name f rest p w :
  try_methods ((name, f) :: rest) p w =
  match f p (emit [trying_line name] w) with
  | (inr text, w') =>
      if text_and_stripped text
      then (inr text, emit [success_line name] w')
      else try_methods rest p w'
  | (inl e, w') => (inl e, w')
  end.
Proof.
  cbn [try_methods]. run_monad. fold (trying_line name).
  destruct (f p (emit [trying_line name] w)) as [[e|text] w']; [reflexivity|].
  destruct (text_and_stripped text); reflexivity.
Qed.

Lemma try_methods_skipped ms p outs :
  skipped p ms outs ->
  runs_to (try_methods ms p) (PyStr "")
    (outs ++ ["All methods failed to extract text"]).
Proof.
  induction 1 as [|name f rest v out outs Hf Hv _ IH]; intros w.
  - reflexivity.
  - rewrite try_methods_cons, Hf, Hv, IH, !emit_emit.
    simpl. rewrite <- app_assoc. reflexivity.
Qed.

Lemma try_methods_first before name f after p v out outs :
  skipped p before outs ->
  runs_to (f p) v out ->
  text_and_stripped v = true ->
  runs_to (try_methods (before ++ (name, f) :: after) p) v
    (outs ++ trying_line name :: out ++ [success_line name]).
Proof.
  intros Hs Hf Hv.
  induction Hs as [|name' f' rest v' out' outs' Hf' Hv' _ IH]; intros w.
  - cbn [app]. rewrite try_methods_cons, Hf, Hv, !emit_emit. reflexivity.
  - cbn [app]. rewrite try_methods_cons, Hf', Hv', IH, !emit_emit.
    cbn [app]. rewrite <- app_assoc. reflexivity.
Qed.

(** Every strategy of the auto mode is one of the guarded operations. *)
Lemma methods_guarded p :
  Forall (fun m => exists label, strategy_run (snd m p) label) (methods env).
Proof.
  unfold methods. repeat constructor; simpl; eexists.
  - apply extract_with_pdfplumber_run.
  - apply extract_with_pymupdf_run.
  - apply extract_with_pypdf2_run.
Qed.

(** Walking down a list of guarded strategies either meets a first one
    whose stripped text is non-empty, or passes over all of them. *)
Lemma guarded_cases ms p :
  Forall (fun m => exists label, strategy_run (snd m p) label) ms ->
  (exists before name f after outs t out,
      ms = before ++ (name, f) :: after
      /\ skipped p before outs
      /\ runs_to (f p) (PyStr (strip t)) out
      /\ nonempty (strip t) = true)
  \/ (exists outs, skipped p ms outs).
Proof.
  induction 1 as [|[name f] rest [label Hrun] _ IH].
  - right. exists []. constructor.
  - simpl in Hrun.
    assert (Hskip : forall v out, runs_to (f p) v out ->
              text_and_stripped v = false ->
              (exists before name0 f0 after outs t out0,
                  (name, f) :: rest = before ++ (name0, f0) :: after
                  /\ skipped p before outs
                  /\ runs_to (f0 p) (PyStr (strip t)) out0
                  /\ nonempty (strip t) = true)
              \/ (exists outs, skipped p ((name, f) :: rest) outs)).
    { intros v out Hf Hv.
      destruct IH as [(before & n0 & f0 & after & outs & t & out0 & -> & Hs & Hf0 & Ht)
                     |[outs Hs]].
      - left. exists ((name, f) :: before), n0, f0, after.
        eexists _, t, out0. split; [reflexivity|].
        split; [econstructor; eassumption|]. split; assumption.
      - right. eexists. econstructor; eassumption. }
    destruct Hrun as [[t Ht]|[e He]].
    + destruct (nonempty (strip t)) eqn:E.
      * left. exists [], name, f, rest, [], t, []. repeat split; try assumption.
        constructor.
      * apply (Hskip _ _ Ht). rewrite text_and_stripped_strip. exact E.
    + apply (Hskip _ _ He). reflexivity.
Qed.

Lemma extract_text_auto p :
  path_exists env p = true ->
  extract_text env p "auto" = try_methods (methods env) p.
Proof. intros H. unfold extract_text. rewrite H. reflexivity. Qed.

(** The auto mode on an existing path: it returns a string, which is
    the text of the first strategy with a non-empty text, or empty when
    every strategy was passed over. *)
Lemma auto_runs p :
  path_exists env p = true ->
  exists s out,
    runs_to (extract_text env p "auto") (PyStr s) out
    /\ trimmed s
    /\ ((exists before name f after outs out',
            methods env = before ++ (name, f) :: after
            /\ skipped p before outs
            /\ runs_to (f p) (PyStr s) out'
            /\ nonempty s = true)
        \/ (s = "" /\ exists outs, skipped p (methods env) outs)).
Proof.
  intros Hp. rewrite (extract_text_auto _ Hp).
  destruct (guarded_cases _ p (methods_guarded p))
    as [(before & name & f & after & outs & t & out & Hms & Hs & Hf & Ht)
       |[outs Hs]].
  - exists (strip t). eexists. split; [|split; [apply strip_trimmed|]].
    + rewrite Hms. apply (try_methods_first _ _ _ _ _ _ _ _ Hs Hf).
      rewrite text_and_stripped_strip. exact Ht.
    + left. exists before, name, f, after, outs, out. auto.
  - exists "". eexists. split; [|split; [split; reflexivity|]].
    + apply (try_methods_skipped _ _ _ Hs).
    + right. eauto.
Qed.

End Auto.

(** ** The batch *)

Section Batch.

Variable env : environment.
Variable directory_path : string.
Variable output_dir : option string.

Ltac run_batch :=
  unfold process_file, process_body, in_world, set_result, write_text,
    set_file, bind, try_except, print, ret, raise, emit;
  cbn -[extract_text failure_line output_path].

Ltac reduce := unfold emit; cbn -[extract_text failure_line output_path].

Ltac settle := reduce; rewrite <- ?app_assoc; try reflexivity.

(** What one turn of the loop does for the document [name]: it never
    raises; a failure of the [try] block leaves the entry empty and
    prints the reason; a success leaves the text as the entry and, with
    an output directory, as the content of the document's output file.
    No other file is touched. *)
Lemma process_file_turn name :
  exists entry out touch,
    turn (process_file env directory_path output_dir name) name entry out touch
    /\ (forall e st st',
          process_body env directory_path output_dir name st = (inl e, st') ->
          entry = "" /\ failure_line name e ∈ out)
    /\ (forall st st',
          process_body env directory_path output_dir name st = (inr tt, st') ->
          forall fs,
            touch fs = match configured output_dir with
                       | Some d => <[output_path d name := entry]> fs
                       | None => fs
                       end)
    /\ (forall fs q,
          (forall d, configured output_dir = Some d -> q <> output_path d name) ->
          touch fs !! q = fs !! q).
Proof.
  set (p := path_join directory_path name).
  destruct (path_exists env p) eqn:Hp.
  2:{ (* the listed file is not there *)
      exists "", ["Processing: " +:+ name;
                  failure_line name (FileNotFoundError ("PDF file not found: " +:+ p))],
        (fun fs => fs).
      assert (Hx : forall w, extract_text env p "auto" w =
                (inl (FileNotFoundError ("PDF file not found: " +:+ p)), w)).
      { intros w. unfold extract_text. rewrite Hp. reflexivity. }
      split; [|split; [|split]].
      - intros w r. run_batch. fold p. rewrite Hx. settle.
      - intros e [w r] st'. run_batch. fold p. rewrite Hx.
        intros [= <- _]. split; [reflexivity|]. set_solver.
      - intros [w r] st'. run_batch. fold p. rewrite Hx. discriminate.
      - reflexivity. }
  destruct (auto_runs env p Hp) as (s & out & Hrun & _ & _).
  destruct (configured output_dir) as [d|] eqn:Hd.
  2:{ (* no output directory *)
      exists s, (("Processing: " +:+ name) :: out), (fun fs => fs).
      split; [|split; [|split]].
      - intros w r. run_batch. fold p. rewrite Hrun, Hd. settle.
      - intros e [w r] st'. run_batch. fold p. rewrite Hrun, Hd. discriminate.
      - reflexivity.
      - reflexivity. }
  set (q := output_path d name).
  destruct (open_w_error env q) as [e0|] eqn:Ho.
  { (* the output file cannot be opened *)
    exists "", (("Processing: " +:+ name) :: out ++ [failure_line name e0]),
      (fun fs => fs).
    split; [|split; [|split]].
    - intros w r. run_batch. fold p. rewrite Hrun, Hd. reduce. fold q.
      rewrite Ho. settle. rewrite insert_insert_eq. reflexivity.
    - intros e [w r] st'. run_batch. fold p. rewrite Hrun, Hd. reduce. fold q. rewrite Ho.
      intros [= <- _]. split; [reflexivity|]. set_solver.
    - intros [w r] st'. run_batch. fold p. rewrite Hrun, Hd. reduce. fold q. rewrite Ho. discriminate.
    - reflexivity. }
  destruct (write_error env q s) as [[e0 remains]|] eqn:Hw.
  { (* the text cannot be written *)
    exists "", (("Processing: " +:+ name) :: out ++ [failure_line name e0]),
      (fun fs => <[q := remains]> fs).
    split; [|split; [|split]].
    - intros w r. run_batch. fold p. rewrite Hrun, Hd. reduce. fold q.
      rewrite Ho. reduce. rewrite Hw. settle.
      rewrite !insert_insert_eq. reflexivity.
    - intros e [w r] st'. run_batch. fold p. rewrite Hrun, Hd. reduce. fold q. rewrite Ho. reduce. rewrite Hw.
      reduce. intros [= <- _]. split; [reflexivity|]. set_solver.
    - intros [w r] st'. run_batch. fold p. rewrite Hrun, Hd. reduce. fold q. rewrite Ho. reduce. rewrite Hw.
      discriminate.
    - intros fs q' Hq. apply lookup_insert_ne. intros <-.
      exact (Hq d eq_refl eq_refl). }
  (* the text is written *)
  exists s, (("Processing: " +:+ name) :: out ++ ["Saved to: " +:+ q]),
    (fun fs => <[q := s]> (<[q := ""]> fs)).
  split; [|split; [|split]].
  - intros w r. run_batch. fold p. rewrite Hrun, Hd. reduce. fold q. rewrite Ho. reduce. rewrite Hw. settle.
  - intros e [w r] st'. run_batch. fold p. rewrite Hrun, Hd. reduce. fold q. rewrite Ho. reduce. rewrite Hw.
    discriminate.
  - intros _ _ _ fs. apply insert_insert_eq.
  - intros fs q' Hq. rewrite !lookup_insert_ne; [reflexivity| |];
      intros <-; exact (Hq d eq_refl eq_refl).
Qed.

(** The whole loop, from any world and any [results]. *)
Lemma process_files_spec names : forall w r,
  exists w' r',
    process_files env directory_path output_dir names (w, r) = (inr tt, (w', r'))
    /\ dirs w' = dirs w
    /\ (exists out, stdout w' = stdout w ++ out)
    /\ (forall k, k ∉ names -> r' !! k = r !! k)
    /\ (forall q,
          (forall name d, name ∈ names -> configured output_dir = Some d ->
                          q <> output_path d name) ->
          files w' !! q = files w !! q)
    /\ (forall name, name ∈ names ->
          exists entry,
            r' !! name = Some (PyStr entry)
            /\ (forall e st st',
                  process_body env directory_path output_dir name st = (inl e, st') ->
                  entry = "" /\ failure_line name e ∈ stdout w')
            /\ (forall st st' d,
                  process_body env directory_path output_dir name st = (inr tt, st') ->
                  configured output_dir = Some d ->
                  (forall m, m ∈ names ->
                             output_path d m = output_path d name -> m = name) ->
                  files w' !! output_path d name = Some entry)).
Proof.
  induction names as [|n rest IH]; intros w r.
  - exists w, r. cbn [process_files]. unfold ret.
    split; [reflexivity|]. split; [reflexivity|].
    split; [exists []; symmetry; apply app_nil_r|].
    split; [reflexivity|]. split; [reflexivity|].
    intros name Hin. inversion Hin.
  - destruct (process_file_turn n)
      as (entry & out & touch & Hturn & Hfail & Hok & Hother).
    cbn [process_files]. unfold bind at 1. rewrite Hturn.
    set (w1 := {| stdout := stdout w ++ out; dirs := dirs w;
                  files := touch (files w) |}).
    destruct (IH w1 (<[n := PyStr entry]> r))
      as (w' & r' & Hrun & Hdirs & [out' Hout] & Hkeep & Hfiles & Hin).
    exists w', r'. split; [exact Hrun|]. split; [exact Hdirs|].
    split; [exists (out ++ out'); rewrite Hout; apply eq_sym, app_assoc|].
    split; [|split].
    + intros k Hk. apply not_elem_of_cons in Hk as [Hkn Hk].
      rewrite (Hkeep k Hk). apply lookup_insert_ne. congruence.
    + intros q Hq. rewrite Hfiles.
      * apply Hother. intros d Hd. apply (Hq n d); [left|exact Hd].
      * intros name d Hname. apply Hq. right. exact Hname.
    + intros name Hname.
      destruct (decide (name ∈ rest)) as [Hrest|Hrest].
      * destruct (Hin name Hrest) as (entry' & Hr' & Hf' & Ho').
        exists entry'. split; [exact Hr'|]. split; [exact Hf'|].
        intros st st' d Hbody Hd Huniq. apply (Ho' st st' d Hbody Hd).
        intros m Hm. apply Huniq. right. exact Hm.
      * apply elem_of_cons in Hname as [->|Hname]; [|contradiction].
        exists entry. split; [|split].
        -- rewrite (Hkeep n Hrest). apply lookup_insert_eq.
        -- intros e st st' Hbody.
           destruct (Hfail e st st' Hbody) as [He Hl]. split; [exact He|].
           rewrite Hout. apply elem_of_app. left. apply elem_of_app. right.
           exact Hl.
        -- intros st st' d Hbody Hd Huniq. rewrite Hfiles.
           ++ unfold w1. cbn [files]. rewrite (Hok st st' Hbody), Hd.
              apply lookup_insert_eq.
           ++ intros m d' Hm Hd' Heq.
              assert (d' = d) as -> by congruence.
              apply Hrest. rewrite <- (Huniq m); [exact Hm|right; exact Hm|].
              symmetry. exact Heq.
Qed.


End Batch.

(** * The specification, claim by claim *)

Import Samples.

(** ** Single documents *)






(** C9.  A method name outside auto, pypdf2, pdfplumber and pymupdf
    makes [extract_text] raise ValueError, with the name in the message,
    when the path exists; the existence check comes first, so on a
    missing path the same call raises FileNotFoundError. *)
Theorem unsupported_method_raises (env : environment) (p method : string)
    (w : world) :
  method <> "auto" ->
  method ∉ supported_methods ->
  extract_text env p method w =
  (inl (if path_exists env p
        then ValueError ("Unsupported method: " +:+ method)
        else FileNotFoundError ("PDF file not found: " +:+ p)), w).
Proof.
  intros Hauto Hsup. unfold extract_text.
  destruct (path_exists env p); [|reflexivity]. cbn [negb].
  assert (Hne : forall m, m = "auto" \/ m ∈ supported_methods ->
                  String.eqb method m = false).
  { intros m Hm. apply String.eqb_neq. intros ->.
    destruct Hm as [->|Hm]; [apply Hauto; reflexivity|exact (Hsup Hm)]. }
  unfold supported_methods in Hne.
  rewrite !Hne by (first [left; reflexivity | right; set_solver]).
  reflexivity.
Qed.

Lemma unsupported_method_raises_witness :
  ("ocr" <> "auto" /\ "ocr" ∉ supported_methods)
  /\ extract_text corrupt_env "docs/a.pdf" "ocr" blank_world =
     (inl (ValueError "Unsupported method: ocr"), blank_world)
  /\ extract_text corrupt_env "docs/b.pdf" "ocr" blank_world =
     (inl (FileNotFoundError "PDF file not found: docs/b.pdf"), blank_world).
Proof.
  assert (H1 : "ocr" <> "auto") by discriminate.
  assert (H2 : "ocr" ∉ supported_methods).
  { unfold supported_methods. rewrite !not_elem_of_cons.
    repeat split; try discriminate. apply not_elem_of_nil. }
  split; [split; assumption|]. split.
  - exact (unsupported_method_raises corrupt_env "docs/a.pdf" "ocr" blank_world H1 H2).
  - exact (unsupported_method_raises corrupt_env "docs/b.pdf" "ocr" blank_world H1 H2).
Defined.


(** C3: the code departs from its own contract.  The docstring of
    [extract_text] promises a [str], and the auto mode gives the empty
    string when nothing could be read; asked for one library by name,
    [extract_text] neither returns a string nor raises for an existing
    document that library cannot read: it returns [None], after
    printing the library's error. *)
Lemma explicit_method_returns_none :
  path_exists corrupt_env "docs/a.pdf" = true
  /\ extract_text corrupt_env "docs/a.pdf" "pypdf2" blank_world =
     (inr PyNone, emit ["Error with PyPDF2: EOF marker not found"] blank_world).
Proof. split; vm_compute; reflexivity. Qed.

(** C6.  For a document PyPDF2 can read, [get_pdf_info] returns the
    number of pages and, for each of /Title, /Author and /Producer that
    the Info dictionary holds, the value found under that key. *)
Theorem get_pdf_info_fields (env : environment) (p : string) rd pages md
    (w : world) :
  pypdf2_open env p = inr rd ->
  rd_pages rd = inr pages ->
  rd_metadata rd = inr md ->
  exists info,
    get_pdf_info env p w = (inr (Some info), w)
    /\ num_pages info = length pages
    /\ (forall d v, md = Some d -> d !! "/Title" = Some v -> title info = v)
    /\ (forall d v, md = Some d -> d !! "/Author" = Some v -> author info = v)
    /\ (forall d v, md = Some d -> d !! "/Producer" = Some v -> producer info = v).
Proof.
  intros Ho Hpages Hmd.
  assert (Hfield : forall key d v, md = Some d -> d !! key = Some v ->
            info_field md key = v).
  { intros key d v -> Hv. unfold info_field.
    destruct (decide (d = ∅)) as [->|_].
    - rewrite lookup_empty in Hv. discriminate.
    - rewrite Hv. reflexivity. }
  eexists. split.
  - unfold get_pdf_info. run_monad. rewrite Ho. cbn. rewrite Hpages. cbn.
    rewrite Hmd. reflexivity.
  - cbn. split; [reflexivity|]. repeat split; intros d v; apply Hfield.
Qed.

Lemma get_pdf_info_fields_witness :
  exists info,
    get_pdf_info report_env "docs/a.pdf" blank_world = (inr (Some info), blank_world)
    /\ num_pages info = 2
    /\ title info = "Report" /\ author info = "Ann" /\ producer info = "LaTeX".
Proof.
  destruct (get_pdf_info_fields report_env "docs/a.pdf" _ _ _ blank_world
              eq_refl eq_refl eq_refl)
    as (info & Hrun & Hn & Ht & Ha & Hp).
  exists info. split; [exact Hrun|]. split; [exact Hn|].
  split; [|split].
  - apply (Ht _ _ eq_refl). vm_compute. reflexivity.
  - apply (Ha _ _ eq_refl). vm_compute. reflexivity.
  - apply (Hp _ _ eq_refl). vm_compute. reflexivity.
Defined.








(** Whatever the libraries answer and whatever the method, a string
    that [extract_text] returns neither starts nor ends with
    whitespace. *)
Theorem extract_text_trimmed (env : environment) (p method : string)
    (w w' : world) (s : string) :
  extract_text env p method w = (inr (PyStr s), w') -> trimmed s.
Proof.
  unfold extract_text. destruct (path_exists env p) eqn:Hp; cbn [negb];
    [|discriminate].
  assert (Hg : forall m label, strategy_run m label ->
            m w = (inr (PyStr s), w') -> trimmed s).
  { intros m label [[t Ht]|[e He]] Hm; rewrite ?Ht, ?He in Hm.
    - injection Hm as <- _. apply strip_trimmed.
    - discriminate. }
  destruct (String.eqb method "auto").
  { destruct (auto_runs env p Hp) as (s0 & out & Hrun & Ht & _).
    rewrite (extract_text_auto _ _ Hp) in Hrun. rewrite Hrun.
    intros [= <- _]. exact Ht. }
  destruct (String.eqb method "pypdf2");
    [exact (Hg _ _ (extract_with_pypdf2_run env p))|].
  destruct (String.eqb method "pdfplumber");
    [exact (Hg _ _ (extract_with_pdfplumber_run env p))|].
  destruct (String.eqb method "pymupdf");
    [exact (Hg _ _ (extract_with_pymupdf_run env p))|].
  discriminate.
Qed.

Lemma extract_text_trimmed_witness :
  extract_text padded_env "docs/a.pdf" "pymupdf" blank_world
    = (inr (PyStr "hi"), blank_world)
  /\ trimmed "hi".
Proof.
  assert (H : extract_text padded_env "docs/a.pdf" "pymupdf" blank_world
              = (inr (PyStr "hi"), blank_world)) by (vm_compute; reflexivity).
  split; [exact H|].
  exact (extract_text_trimmed padded_env "docs/a.pdf" "pymupdf"
           blank_world blank_world "hi" H).
Defined.


(** ** Output file names *)

Lemma rfind_dot_pdf base : rfind "." (base +:+ ".pdf") = Some (String.length base).
Proof.
  induction base as [|c base IH]; [reflexivity|].
  simpl. simpl in IH. rewrite IH. reflexivity.
Qed.

Lemma length_append_pdf base :
  String.length (base +:+ ".pdf") = String.length base + 4.
Proof. induction base as [|c base IH]; simpl; [reflexivity|]. rewrite IH. reflexivity. Qed.

Lemma substring_prefix base rest :
  substring 0 (String.length base) (base +:+ rest) = base.
Proof.
  induction base as [|c base IH]; simpl.
  - destruct rest; reflexivity.
  - rewrite IH. reflexivity.
Qed.

(** The output file of a document [<base>.pdf] with a non-empty [base]
    is [<output_dir>/<base>.txt]. *)
Theorem output_path_of_pdf (output_dir base : string) :
  base <> "" ->
  output_path output_dir (base +:+ ".pdf") = path_join output_dir (base +:+ ".txt").
Proof.
  intros Hbase. unfold output_path, stem.
  rewrite rfind_dot_pdf, length_append_pdf, substring_prefix.
  destruct base as [|c base]; [contradiction|].
  replace ((0 <? String.length (String c base))
           && (String.length (String c base)
               <? String.length (String c base) + 4 - 1))%nat with true.
  - reflexivity.
  - symmetry. apply andb_true_iff. split; apply Nat.ltb_lt; simpl; lia.
Qed.

Lemma output_path_of_pdf_witness :
  "report" <> "" /\ output_path "out" "report.pdf" = "out/report.txt".
Proof.
  assert (H : "report" <> "") by discriminate.
  split; [exact H|]. exact (output_path_of_pdf "out" "report" H).
Defined.

(** Two names the glob can list together have the same output file:
    the stem of [.pdf] is [.pdf] itself. *)
Example output_path_collision :
  output_path "out" ".pdf" = "out/.pdf.txt"
  /\ output_path "out" ".pdf.pdf" = "out/.pdf.txt".
Proof. split; reflexivity. Qed.

(** * Further properties of the code *)

(** ** Strings *)

Lemma append_cons (x : ascii) (a b : string) :
  String x a +:+ b = String x (a +:+ b).
Proof. reflexivity. Qed.

Lemma append_assoc (a b c : string) : (a +:+ b) +:+ c = a +:+ b +:+ c.
Proof.
  induction a as [|x a IH]; [reflexivity|].
  rewrite !append_cons, IH. reflexivity.
Qed.

Lemma append_nil_r (a : string) : a +:+ "" = a.
Proof.
  induction a as [|x a IH]; [reflexivity|]. rewrite append_cons, IH. reflexivity.
Qed.

Lemma length_append (a b : string) :
  String.length (a +:+ b) = String.length a + String.length b.
Proof.
  induction a as [|x a IH]; [reflexivity|].
  rewrite append_cons. simpl. rewrite IH. reflexivity.
Qed.

Lemma append_inv_head (a b c : string) : a +:+ b = a +:+ c -> b = c.
Proof.
  induction a as [|x a IH]; [auto|]. rewrite !append_cons. intros [= H]. auto.
Qed.

Lemma append_inv_tail (a b c : string) : a +:+ c = b +:+ c -> a = b.
Proof.
  revert b. induction a as [|x a IH]; intros [|y b] H.
  - reflexivity.
  - apply (f_equal String.length) in H. change ("" +:+ c) with c in H.
    rewrite append_cons in H. simpl in H. rewrite length_append in H. lia.
  - apply (f_equal String.length) in H. change ("" +:+ c) with c in H.
    rewrite append_cons in H. simpl in H. rewrite length_append in H. lia.
  - rewrite !append_cons in H. injection H as -> H. rewrite (IH b H). reflexivity.
Qed.

(** ** Pages *)

Lemma concat_pages_texts texts acc :
  concat_pages (read_pages (str_pages texts)) acc = inr (acc +:+ lines_of texts).
Proof.
  revert acc. induction texts as [|t texts IH]; intros acc; simpl.
  - rewrite append_nil_r. reflexivity.
  - rewrite IH, !append_assoc. reflexivity.
Qed.


Lemma concat_truthy_pages_texts texts acc :
  concat_truthy_pages (read_pages texts) acc
  = inr (acc +:+ lines_of (truthy_texts texts)).
Proof.
  revert acc. induction texts as [|[|t] texts IH]; intros acc; simpl.
  - rewrite append_nil_r. reflexivity.
  - apply IH.
  - destruct (nonempty t); simpl; [|apply IH].
    rewrite IH, !append_assoc. reflexivity.
Qed.

Lemma joined_pages_run (env : environment) (p : string) (texts : list string) :
  (forall rd, pypdf2_open env p = inr rd ->
              rd_pages rd = inr (read_pages (str_pages texts)) ->
              runs_to (extract_with_pypdf2 env p) (PyStr (strip (lines_of texts))) [])
  /\ (fitz_open env p = inr {| fz_pages := read_pages (str_pages texts);
                               fz_close := None |} ->
      runs_to (extract_with_pymupdf env p) (PyStr (strip (lines_of texts))) []).
Proof.
  split.
  - intros rd Ho Hpages w. rewrite emit_nil.
    unfold extract_with_pypdf2, pypdf2_body. run_monad.
    rewrite Ho. simpl. rewrite Hpages. simpl.
    rewrite concat_pages_texts. reflexivity.
  - intros Ho w. rewrite emit_nil.
    unfold extract_with_pymupdf, pymupdf_body. run_monad.
    rewrite Ho. simpl. rewrite concat_pages_texts. reflexivity.
Qed.

(** When every page has a text, PyPDF2 and PyMuPDF give the texts in
    page order, each closed by a newline, stripped as a whole. *)
Theorem pages_are_joined (env : environment) (p : string) (texts : list string) :
  (forall rd, pypdf2_open env p = inr rd ->
              rd_pages rd = inr (read_pages (str_pages texts)) ->
              runs_to (extract_with_pypdf2 env p) (PyStr (strip (lines_of texts))) [])
  /\ (fitz_open env p = inr {| fz_pages := read_pages (str_pages texts);
                               fz_close := None |} ->
      runs_to (extract_with_pymupdf env p) (PyStr (strip (lines_of texts))) []).
Proof. exact (joined_pages_run env p texts). Qed.

Lemma pages_are_joined_witness :
  runs_to (extract_with_pypdf2 chapters_env "docs/a.pdf")
    (PyStr ("one" +:+ nl +:+ "two " +:+ nl +:+ "three")) []
  /\ runs_to (extract_with_pymupdf chapters_env "docs/a.pdf")
    (PyStr ("one" +:+ nl +:+ "two " +:+ nl +:+ "three")) [].
Proof.
  destruct (pages_are_joined chapters_env "docs/a.pdf" [" one"; "two "; "three "])
    as [H1 H2].
  split.
  - exact (H1 _ eq_refl eq_refl).
  - exact (H2 eq_refl).
Defined.



Lemma truthy_pages_run (env : environment) (p : string)
    (texts : list pyval) :
  pdfplumber_open env p = inr (read_pages texts) ->
  runs_to (extract_with_pdfplumber env p)
    (PyStr (strip (lines_of (truthy_texts texts)))) [].
Proof.
  intros Ho w. rewrite emit_nil.
  unfold extract_with_pdfplumber, pdfplumber_body. run_monad.
  rewrite Ho. simpl. rewrite concat_truthy_pages_texts. reflexivity.
Qed.

(** pdfplumber passes over the pages whose text is [None] or empty:
    its text is made of the other pages alone, each closed by a
    newline, stripped as a whole. *)
Theorem pdfplumber_skips_empty_pages (env : environment) (p : string)
    (texts : list pyval) :
  pdfplumber_open env p = inr (read_pages texts) ->
  runs_to (extract_with_pdfplumber env p)
    (PyStr (strip (lines_of (truthy_texts texts)))) [].
Proof. exact (truthy_pages_run env p texts). Qed.

Lemma pdfplumber_skips_empty_pages_witness :
  pdfplumber_open gap_env "docs/a.pdf"
    = inr (read_pages [PyStr "one"; PyNone; PyStr ""; PyStr "four"])
  /\ extract_with_pdfplumber gap_env "docs/a.pdf" blank_world
     = (inr (PyStr (strip (lines_of ["one"; "four"]))), emit [] blank_world).
Proof.
  split; [reflexivity|].
  exact (pdfplumber_skips_empty_pages gap_env "docs/a.pdf"
           [PyStr "one"; PyNone; PyStr ""; PyStr "four"] eq_refl blank_world).
Defined.

(** ** The auto mode, continued *)

Lemma extract_with_pdfplumber_ext (env1 env2 : environment) (p : string) :
  pdfplumber_open env1 p = pdfplumber_open env2 p ->
  extract_with_pdfplumber env1 p = extract_with_pdfplumber env2 p.
Proof.
  intros H. unfold extract_with_pdfplumber, pdfplumber_body. rewrite H.
  reflexivity.
Qed.

Lemma extract_with_pymupdf_ext (env1 env2 : environment) (p : string) :
  fitz_open env1 p = fitz_open env2 p ->
  extract_with_pymupdf env1 p = extract_with_pymupdf env2 p.
Proof.
  intros H. unfold extract_with_pymupdf, pymupdf_body. rewrite H. reflexivity.
Qed.

(** Once a strategy has given a non-empty text, the libraries after it
    are not consulted: two environments that agree on pdfplumber give
    the same run of the auto mode when pdfplumber succeeds, and two
    that agree on pdfplumber and PyMuPDF give the same run when
    pdfplumber is passed over and PyMuPDF succeeds. *)
Theorem auto_stops_at_first_success (env1 env2 : environment) (p : string)
    (w : world) :
  path_exists env1 p = true ->
  path_exists env2 p = true ->
  pdfplumber_open env1 p = pdfplumber_open env2 p ->
  (forall v out,
      runs_to (extract_with_pdfplumber env1 p) v out ->
      text_and_stripped v = true ->
      extract_text env1 p "auto" w = extract_text env2 p "auto" w)
  /\ (forall v1 out1 v2 out2,
        fitz_open env1 p = fitz_open env2 p ->
        runs_to (extract_with_pdfplumber env1 p) v1 out1 ->
        text_and_stripped v1 = false ->
        runs_to (extract_with_pymupdf env1 p) v2 out2 ->
        text_and_stripped v2 = true ->
        extract_text env1 p "auto" w = extract_text env2 p "auto" w).
Proof.
  intros Hp1 Hp2 Hplumber.
  rewrite (extract_text_auto _ _ Hp1), (extract_text_auto _ _ Hp2).
  pose proof (extract_with_pdfplumber_ext env1 env2 p Hplumber) as E1.
  unfold methods. split.
  - intros v out Hrun Hv.
    pose proof (try_methods_first [] "pdfplumber" (extract_with_pdfplumber env1)
                  [("pymupdf", extract_with_pymupdf env1);
                   ("pypdf2", extract_with_pypdf2 env1)]
                  p v out [] (skipped_nil p) Hrun Hv w) as R1.
    rewrite E1 in Hrun.
    pose proof (try_methods_first [] "pdfplumber" (extract_with_pdfplumber env2)
                  [("pymupdf", extract_with_pymupdf env2);
                   ("pypdf2", extract_with_pypdf2 env2)]
                  p v out [] (skipped_nil p) Hrun Hv w) as R2.
    cbn [app] in R1, R2. rewrite R1, R2. reflexivity.
  - intros v1 out1 v2 out2 Hfitz Hrun1 Hv1 Hrun2 Hv2.
    pose proof (extract_with_pymupdf_ext env1 env2 p Hfitz) as E2.
    pose proof (skipped_cons p "pdfplumber" _ [] v1 out1 [] Hrun1 Hv1
                  (skipped_nil p)) as Hs1.
    pose proof (try_methods_first _ "pymupdf" (extract_with_pymupdf env1)
                  [("pypdf2", extract_with_pypdf2 env1)] p v2 out2 _
                  Hs1 Hrun2 Hv2 w) as R1.
    rewrite E1 in Hrun1. rewrite E2 in Hrun2.
    pose proof (skipped_cons p "pdfplumber" _ [] v1 out1 [] Hrun1 Hv1
                  (skipped_nil p)) as Hs2.
    pose proof (try_methods_first _ "pymupdf" (extract_with_pymupdf env2)
                  [("pypdf2", extract_with_pypdf2 env2)] p v2 out2 _
                  Hs2 Hrun2 Hv2 w) as R2.
    cbn [app] in R1, R2. rewrite R1, R2. reflexivity.
Qed.

Lemma auto_stops_at_first_success_witness :
  (path_exists primary_env "docs/a.pdf" = true
   /\ path_exists padded_env "docs/a.pdf" = true)
  /\ extract_text primary_env "docs/a.pdf" "auto" blank_world
     = extract_text
         (one_doc (pdfplumber_open primary_env) (fitz_open padded_env)
            (pypdf2_open padded_env))
         "docs/a.pdf" "auto" blank_world.
Proof.
  split; [split; reflexivity|].
  refine (proj1 (auto_stops_at_first_success primary_env
                   (one_doc (pdfplumber_open primary_env) (fitz_open padded_env)
                      (pypdf2_open padded_env))
                   "docs/a.pdf" blank_world eq_refl eq_refl eq_refl)
            (PyStr "hi") [] _ eq_refl).
  intros w. rewrite emit_nil. reflexivity.
Defined.



(** ** What single-document calls leave alone *)



(** ** [get_pdf_info], continued *)


(** For a document PyPDF2 reads, each of the five text fields is the
    value the Info dictionary holds under its key, and ['N/A'] when the
    document has no Info dictionary or the dictionary lacks the key. *)
Theorem get_pdf_info_defaults (env : environment) (p : string) rd pages md
    (w : world) :
  pypdf2_open env p = inr rd ->
  rd_pages rd = inr pages ->
  rd_metadata rd = inr md ->
  let field key := match md with
                   | Some d => default "N/A" (d !! key)
                   | None => "N/A"
                   end in
  get_pdf_info env p w =
  (inr (Some {| num_pages := length pages;
                title := field "/Title";
                author := field "/Author";
                subject := field "/Subject";
                creator := field "/Creator";
                producer := field "/Producer" |}), w).
Proof.
  intros Ho Hpages Hmd field.
  assert (Hfield : forall key, info_field md key = field key).
  { intros key. unfold info_field, field. destruct md as [d|]; [|reflexivity].
    destruct (decide (d = ∅)) as [->|_]; [|reflexivity].
    rewrite lookup_empty. reflexivity. }
  unfold get_pdf_info. run_monad. rewrite Ho. simpl. rewrite Hpages. simpl.
  rewrite Hmd. simpl. rewrite !Hfield. reflexivity.
Qed.

Lemma get_pdf_info_defaults_witness :
  get_pdf_info report_env "docs/a.pdf" blank_world =
  (inr (Some {| num_pages := 2; title := "Report"; author := "Ann";
                subject := "N/A"; creator := "N/A"; producer := "LaTeX" |}),
   blank_world).
Proof.
  exact (get_pdf_info_defaults report_env "docs/a.pdf" _ _ _ blank_world
           eq_refl eq_refl eq_refl).
Defined.

(** ** The batch, continued *)


Section BatchEntries.

Variable env : environment.
Variable directory_path : string.
Variable output_dir : option string.

Ltac run_batch :=
  unfold process_file, process_body, in_world, set_result, write_text,
    set_file, bind, try_except, print, ret, raise, emit;
  cbn -[extract_text failure_line output_path].

Ltac reduce := unfold emit; cbn -[extract_text failure_line output_path].

Ltac settle := reduce; rewrite <- ?app_assoc; try reflexivity.





(** The whole call leaves every file alone that is not the output file
    of a listed document, and the only directory it can add is the
    output directory. *)
Lemma extract_from_directory_frame w r w' :
  extract_from_directory env directory_path output_dir w = (r, w') ->
  (forall q,
      (forall name d, name ∈ glob_pdf env directory_path ->
                      configured output_dir = Some d ->
                      q <> output_path d name) ->
      files w' !! q = files w !! q)
  /\ (dirs w' = dirs w
      \/ exists d, configured output_dir = Some d /\ dirs w' = {[ d ]} ∪ dirs w).
Proof.
  unfold extract_from_directory, with_results, bind.
  destruct (configured output_dir) as [d|] eqn:Hd.
  - unfold makedirs. destruct (makedirs_error env d) as [e|].
    + unfold raise. intros [= _ <-]. split; [reflexivity|left; reflexivity].
    + set (w1 := {| stdout := stdout w; dirs := {[ d ]} ∪ dirs w;
                    files := files w |}).
      destruct (process_files_spec env directory_path output_dir
                  (glob_pdf env directory_path) w1 ∅)
        as (w2 & r2 & Hrun & Hdirs & _ & _ & Hfiles & _).
      rewrite Hrun. intros [= _ <-]. split.
      * intros q Hq. rewrite Hfiles; [reflexivity|].
        intros name d' Hname Hd'. apply (Hq name d' Hname).
        congruence.
      * right. exists d. split; [reflexivity|]. rewrite Hdirs. reflexivity.
  - unfold ret.
    destruct (process_files_spec env directory_path output_dir
                (glob_pdf env directory_path) w ∅)
      as (w2 & r2 & Hrun & Hdirs & _ & _ & Hfiles & _).
    rewrite Hrun. intros [= _ <-]. split.
    + intros q Hq. apply Hfiles. intros name d' Hname Hd'.
      rewrite Hd in Hd'. discriminate.
    + left. exact Hdirs.
Qed.

End BatchEntries.




(** The batch call changes no file other than the output files of the
    listed documents; without an output directory ([None] or the empty
    string) it changes no file at all and asks for no directory. *)
Theorem batch_touches_only_outputs (env : environment) (directory_path : string)
    (output_dir : option string) (w w' : world)
    (r : outcome (gmap string pyval)) :
  extract_from_directory env directory_path output_dir w = (r, w') ->
  (forall q,
      (forall name d, name ∈ glob_pdf env directory_path ->
                      configured output_dir = Some d ->
                      q <> output_path d name) ->
      files w' !! q = files w !! q)
  /\ (output_dir = None \/ output_dir = Some "" ->
      files w' = files w /\ dirs w' = dirs w).
Proof.
  intros H.
  destruct (extract_from_directory_frame env directory_path output_dir w r w' H)
    as [Hfiles Hdirs].
  split; [exact Hfiles|].
  intros Hnone.
  assert (Hc : configured output_dir = None)
    by (destruct Hnone as [->| ->]; reflexivity).
  split.
  - apply map_eq. intros q. apply Hfiles. intros name d _ Hd. congruence.
  - destruct Hdirs as [Hd|(d & Hd & _)]; [exact Hd|congruence].
Qed.

Lemma batch_touches_only_outputs_witness :
  exists r w',
    extract_from_directory primary_env "docs" (Some "out") used_world = (r, w')
    /\ files w' !! "notes.txt" = Some "keep"
    /\ files w' !! "out/old.txt" = Some "old"
    /\ files w' !! "out/a.txt" = Some "hi".
Proof.
  destruct (extract_from_directory primary_env "docs" (Some "out") used_world)
    as [r w'] eqn:E.
  exists r, w'. split; [reflexivity|].
  destruct (batch_touches_only_outputs primary_env "docs" (Some "out")
              used_world w' r E) as [Hframe _].
  assert (Hq : forall q, q <> "out/a.txt" ->
            forall name d, name ∈ glob_pdf primary_env "docs" ->
                           configured (Some "out") = Some d ->
                           q <> output_path d name).
  { intros q Hne name d Hname [= <-].
    apply list_elem_of_singleton in Hname as ->. exact Hne. }
  split; [|split].
  - rewrite (Hframe "notes.txt" (Hq "notes.txt" ltac:(discriminate))). reflexivity.
  - rewrite (Hframe "out/old.txt" (Hq "out/old.txt" ltac:(discriminate))). reflexivity.
  - assert (Hw : files (snd (extract_from_directory primary_env "docs" (Some "out")
                               used_world)) !! "out/a.txt" = Some "hi")
      by (vm_compute; reflexivity).
    rewrite E in Hw. exact Hw.
Defined.

(** A directory in which the glob finds nothing: the call returns the
    empty mapping and prints nothing; the output directory, when asked
    for, is made all the same. *)
Theorem batch_on_empty_directory (env : environment) (directory_path : string)
    (output_dir : option string) (w : world) :
  glob_pdf env directory_path = [] ->
  output_ready env output_dir ->
  exists w',
    extract_from_directory env directory_path output_dir w = (inr ∅, w')
    /\ stdout w' = stdout w
    /\ files w' = files w
    /\ dirs w' = match configured output_dir with
                 | Some d => {[ d ]} ∪ dirs w
                 | None => dirs w
                 end.
Proof.
  intros Hglob Hready.
  unfold extract_from_directory, with_results, bind. rewrite Hglob.
  unfold output_ready in Hready.
  destruct (configured output_dir) as [d|].
  - unfold makedirs. rewrite (Hready d eq_refl). eexists.
    split; [reflexivity|]. repeat split.
  - exists w. repeat split.
Qed.

Lemma batch_on_empty_directory_witness :
  output_ready empty_dir_env (Some "out")
  /\ exists w',
       extract_from_directory empty_dir_env "docs" (Some "out") blank_world
       = (inr ∅, w')
       /\ stdout w' = [] /\ files w' = ∅ /\ dirs w' = {[ "out" ]} ∪ ∅.
Proof.
  assert (Hready : output_ready empty_dir_env (Some "out"))
    by (intros d _; reflexivity).
  split; [exact Hready|].
  exact (batch_on_empty_directory empty_dir_env "docs" (Some "out") blank_world
           eq_refl Hready).
Defined.





Lemma stem_of_pdf (base : string) : base <> "" -> stem (base +:+ ".pdf") = base.
Proof.
  intros Hbase. unfold stem.
  rewrite rfind_dot_pdf, length_append_pdf, substring_prefix.
  destruct base as [|c base]; [contradiction|].
  replace ((0 <? String.length (String c base))
           && (String.length (String c base)
               <? String.length (String c base) + 4 - 1))%nat with true.
  - reflexivity.
  - symmetry. apply andb_true_iff. split; apply Nat.ltb_lt; simpl; lia.
Qed.

(** Two different documents [<base>.pdf] with non-empty bases have
    different output files. *)
Theorem distinct_documents_distinct_outputs (output_dir base1 base2 : string) :
  base1 <> "" ->
  base2 <> "" ->
  base1 <> base2 ->
  output_path output_dir (base1 +:+ ".pdf")
    <> output_path output_dir (base2 +:+ ".pdf").
Proof.
  intros H1 H2 Hne. unfold output_path.
  rewrite (stem_of_pdf _ H1), (stem_of_pdf _ H2).
  unfold path_join. intros H. apply Hne.
  apply append_inv_head in H.
  exact (append_inv_tail _ _ _ H).
Qed.

Lemma distinct_documents_distinct_outputs_witness :
  ("a" <> "" /\ "b" <> "" /\ "a" <> "b")
  /\ output_path "out" "a.pdf" <> output_path "out" "b.pdf".
Proof.
  assert (Ha : "a" <> "") by discriminate.
  assert (Hb : "b" <> "") by discriminate.
  assert (Hab : "a" <> "b") by discriminate.
  split; [repeat split; assumption|].
  exact (distinct_documents_distinct_outputs "out" "a" "b" Ha Hb Hab).
Defined.

(** ** [main] *)

Example py_title_keys :
  map py_title ["num_pages"; "title"; "author"; "subject"; "creator"; "producer"]
  = ["Num_Pages"; "Title"; "Author"; "Subject"; "Creator"; "Producer"].
Proof. reflexivity. Qed.










(** ** [__init__] and [extract_text] *)



(** ** One page, one text *)




(** * Interrupts and a refusing console *)

Section Calm.

Variable st : setting.
Hypothesis Hcalm : calm st.

Lemma print_g_calm line w : print_g st line w = (inr tt, emit [line] w).
Proof. unfold print_g. rewrite (proj1 Hcalm line). reflexivity. Qed.

Lemma library_calls_calm library p body w :
  library_calls st library p body w = lift body w.
Proof. unfold library_calls. rewrite (proj2 Hcalm library p). reflexivity. Qed.

(** A guarded operation, undisturbed, is the operation of the first
    part. *)
Lemma guarded_calm library p body label w :
  try_except_g (library_calls st library p body)
    (fun e => let+ _ := print_g st (label +:+ exn_msg e) in ret_g PyNone) w
  = lift (try_except body
            (fun e => let* _ := print (label +:+ exn_msg e) in ret PyNone)) w.
Proof.
  unfold try_except_g, try_except, lift. rewrite library_calls_calm.
  unfold lift. destruct (body w) as [[e|v] w1]; [|reflexivity].
  unfold bind_g, bind. rewrite print_g_calm. reflexivity.
Qed.

Lemma extract_with_pypdf2_calm p w :
  extract_with_pypdf2_g st p w = lift (extract_with_pypdf2 (libs st) p) w.
Proof. apply guarded_calm. Qed.

Lemma extract_with_pdfplumber_calm p w :
  extract_with_pdfplumber_g st p w = lift (extract_with_pdfplumber (libs st) p) w.
Proof. apply guarded_calm. Qed.

Lemma extract_with_pymupdf_calm p w :
  extract_with_pymupdf_g st p w = lift (extract_with_pymupdf (libs st) p) w.
Proof. apply guarded_calm. Qed.

Lemma try_methods_calm ms_g ms p :
  Forall2 (fun mg m => fst mg = fst m
                       /\ forall w, snd mg p w = lift (snd m p) w) ms_g ms ->
  forall w, try_methods_g st ms_g p w = lift (try_methods ms p) w.
Proof.
  induction 1 as [|[name_g f_g] [name f] ms_g ms [Hname Hf] _ IH]; intros w.
  - cbn [try_methods_g try_methods]. unfold bind_g, bind.
    rewrite print_g_calm. reflexivity.
  - cbn [fst snd] in Hname, Hf. subst name_g.
    cbn [try_methods_g try_methods]. unfold bind_g at 1. rewrite print_g_calm.
    unfold bind_g at 1. rewrite Hf.
    unfold lift at 1. unfold bind at 1. unfold print at 1. unfold bind at 1.
    unfold lift at 1.
    destruct (f p (emit ["Trying " +:+ name +:+ "..."] w)) as [[e|text] w1];
      [reflexivity|].
    destruct (text_and_stripped text).
    + unfold bind_g. rewrite print_g_calm. reflexivity.
    + rewrite IH. reflexivity.
Qed.

Lemma extract_text_calm p method w :
  extract_text_g st p method w = lift (extract_text (libs st) p method) w.
Proof.
  unfold extract_text_g, extract_text.
  destruct (negb (path_exists (libs st) p)); [reflexivity|].
  destruct (String.eqb method "auto").
  { apply try_methods_calm. unfold methods_g, methods.
    repeat constructor; cbn [fst snd]; intros w0.
    - apply extract_with_pdfplumber_calm.
    - apply extract_with_pymupdf_calm.
    - apply extract_with_pypdf2_calm. }
  destruct (String.eqb method "pypdf2"); [apply extract_with_pypdf2_calm|].
  destruct (String.eqb method "pdfplumber"); [apply extract_with_pdfplumber_calm|].
  destruct (String.eqb method "pymupdf"); [apply extract_with_pymupdf_calm|].
  reflexivity.
Qed.






End Calm.

(** ** The per-library operations, interruptible *)

Lemma value_of_test (o : outcome string) :
  text_and_stripped (value_of o) = nonempty (stripped_text o).
Proof. destruct o as [e|t]; [reflexivity|]. apply text_and_stripped_strip. Qed.

Lemma value_of_hit (o : outcome string) :
  nonempty (stripped_text o) = true -> value_of o = PyStr (stripped_text o).
Proof. destruct o as [e|t]; [discriminate|reflexivity]. Qed.

Lemma outcome_run body label (o : outcome string) :
  (forall w, body w = (match o with
                       | inl e => inl e
                       | inr t => inr (PyStr (strip t))
                       end, w)) ->
  forall w,
    try_except body
      (fun e => let* _ := print (label +:+ exn_msg e) in ret PyNone) w
    = match o with
      | inl e => (inr PyNone, emit [label +:+ exn_msg e] w)
      | inr t => (inr (PyStr (strip t)), w)
      end.
Proof.
  intros Hbody w. unfold try_except. rewrite Hbody.
  destruct o; reflexivity.
Qed.

Lemma pypdf2_outcome_run (env : environment) p w :
  extract_with_pypdf2 env p w =
  match pypdf2_outcome env p with
  | inl e => (inr PyNone, emit ["Error with PyPDF2: " +:+ exn_msg e] w)
  | inr t => (inr (PyStr (strip t)), w)
  end.
Proof.
  apply outcome_run. intros w0. unfold pypdf2_body, pypdf2_outcome. run_monad.
  destruct (pypdf2_open env p) as [e|rd]; [reflexivity|].
  destruct (rd_pages rd) as [e|pages]; [reflexivity|].
  destruct (concat_pages pages ""); reflexivity.
Qed.

Lemma pdfplumber_outcome_run (env : environment) p w :
  extract_with_pdfplumber env p w =
  match pdfplumber_outcome env p with
  | inl e => (inr PyNone, emit ["Error with pdfplumber: " +:+ exn_msg e] w)
  | inr t => (inr (PyStr (strip t)), w)
  end.
Proof.
  apply outcome_run. intros w0. unfold pdfplumber_body, pdfplumber_outcome.
  run_monad.
  destruct (pdfplumber_open env p) as [e|pages]; [reflexivity|].
  destruct (concat_truthy_pages pages ""); reflexivity.
Qed.

Lemma pymupdf_outcome_run (env : environment) p w :
  extract_with_pymupdf env p w =
  match pymupdf_outcome env p with
  | inl e => (inr PyNone, emit ["Error with PyMuPDF: " +:+ exn_msg e] w)
  | inr t => (inr (PyStr (strip t)), w)
  end.
Proof.
  apply outcome_run. intros w0. unfold pymupdf_body, pymupdf_outcome. run_monad.
  destruct (fitz_open env p) as [e|doc]; [reflexivity|].
  destruct (concat_pages (fz_pages doc) "") as [e|t]; [reflexivity|].
  destruct (fz_close doc); reflexivity.
Qed.

(** C10, as the code has it.  When the console takes every line and no
    library call is interrupted, each of the three operations returns,
    whatever the library does: [None], after printing the exception,
    when the library raised on opening the document, on its pages or on
    a page (or gave [None] for a page where the loop adds a string),
    and the stripped text otherwise. *)
Theorem strategies_catch_exceptions (st : setting) (p : string) (w : world) :
  calm st ->
  extract_with_pypdf2_g st p w =
    match pypdf2_outcome (libs st) p with
    | inl e => (inr PyNone, emit ["Error with PyPDF2: " +:+ exn_msg e] w)
    | inr text => (inr (PyStr (strip text)), w)
    end
  /\ extract_with_pdfplumber_g st p w =
    match pdfplumber_outcome (libs st) p with
    | inl e => (inr PyNone, emit ["Error with pdfplumber: " +:+ exn_msg e] w)
    | inr text => (inr (PyStr (strip text)), w)
    end
  /\ extract_with_pymupdf_g st p w =
    match pymupdf_outcome (libs st) p with
    | inl e => (inr PyNone, emit ["Error with PyMuPDF: " +:+ exn_msg e] w)
    | inr text => (inr (PyStr (strip text)), w)
    end.
Proof.
  intros Hcalm.
  rewrite (extract_with_pypdf2_calm st Hcalm),
    (extract_with_pdfplumber_calm st Hcalm),
    (extract_with_pymupdf_calm st Hcalm).
  unfold lift.
  rewrite pypdf2_outcome_run, pdfplumber_outcome_run, pymupdf_outcome_run.
  destruct (pypdf2_outcome (libs st) p), (pdfplumber_outcome (libs st) p),
    (pymupdf_outcome (libs st) p); repeat split.
Qed.

Lemma strategies_catch_exceptions_witness :
  calm (quiet gap_env)
  /\ extract_with_pypdf2_g (quiet gap_env) "docs/a.pdf" blank_world
     = (inr PyNone,
        emit ["Error with PyPDF2: EOF marker not found"] blank_world)
  /\ extract_with_pdfplumber_g (quiet gap_env) "docs/a.pdf" blank_world
     = (inr (PyStr ("one" +:+ nl +:+ "four")), blank_world)
  /\ extract_with_pymupdf_g (quiet gap_env) "docs/a.pdf" blank_world
     = (inr PyNone, emit ["Error with PyMuPDF: " +:+ none_plus_str] blank_world).
Proof.
  assert (Hcalm : calm (quiet gap_env)) by (split; reflexivity).
  split; [exact Hcalm|].
  exact (strategies_catch_exceptions (quiet gap_env) "docs/a.pdf" blank_world Hcalm).
Defined.

(** C10 as stated fails: a KeyboardInterrupt met inside a library goes
    through each of the three operations, [except Exception] not
    catching it; and so does the error of a console that cannot print
    the line of the handler. *)
Lemma exceptions_that_pass_through :
  extract_with_pypdf2_g (interrupted primary_env) "docs/a.pdf" blank_world
    = (inl (Base "KeyboardInterrupt"), blank_world)
  /\ extract_with_pdfplumber_g (interrupted primary_env) "docs/a.pdf" blank_world
    = (inl (Base "KeyboardInterrupt"), blank_world)
  /\ extract_with_pymupdf_g (interrupted primary_env) "docs/a.pdf" blank_world
    = (inl (Base "KeyboardInterrupt"), blank_world)
  /\ extract_with_pypdf2_g (deaf corrupt_env) "docs/a.pdf" blank_world
    = (inl (Exc (ValueError "'ascii' codec can't encode character")), blank_world).
Proof. repeat split. Qed.

(** ** The auto mode, interruptible *)

Lemma outcome_runs_to (m : M world pyval) label (o : outcome string) :
  (forall w, m w = match o with
                   | inl e => (inr PyNone, emit [label +:+ exn_msg e] w)
                   | inr t => (inr (PyStr (strip t)), w)
                   end) ->
  exists out, runs_to m (value_of o) out.
Proof.
  intros H. destruct o as [e|t].
  - exists [label +:+ exn_msg e]. intros w. apply H.
  - exists []. intros w. rewrite H, emit_nil. reflexivity.
Qed.

Lemma stripped_text_trimmed (o : outcome string) : trimmed (stripped_text o).
Proof. destruct o; [split; reflexivity|apply strip_trimmed]. Qed.

Lemma first_text_run (env : environment) (p : string) :
  path_exists env p = true ->
  exists out, runs_to (extract_text env p "auto") (PyStr (first_text env p)) out.
Proof.
  intros Hp. rewrite (extract_text_auto _ _ Hp). unfold methods, first_text.
  destruct (outcome_runs_to _ _ _ (pdfplumber_outcome_run env p)) as [o1 H1].
  destruct (outcome_runs_to _ _ _ (pymupdf_outcome_run env p)) as [o2 H2].
  destruct (outcome_runs_to _ _ _ (pypdf2_outcome_run env p)) as [o3 H3].
  pose proof (value_of_test (pdfplumber_outcome env p)) as T1.
  pose proof (value_of_test (pymupdf_outcome env p)) as T2.
  pose proof (value_of_test (pypdf2_outcome env p)) as T3.
  destruct (nonempty (stripped_text (pdfplumber_outcome env p))) eqn:E1.
  { rewrite <- (value_of_hit _ E1). eexists.
    exact (try_methods_first [] "pdfplumber" _ _ p _ _ [] (skipped_nil p) H1 T1). }
  pose proof (skipped_cons p "pdfplumber" _ [] _ _ [] H1 T1 (skipped_nil p)) as S1.
  destruct (nonempty (stripped_text (pymupdf_outcome env p))) eqn:E2.
  { rewrite <- (value_of_hit _ E2). eexists.
    exact (try_methods_first _ "pymupdf" _ _ p _ _ _ S1 H2 T2). }
  pose proof (skipped_cons p "pdfplumber" _ _ _ _ _ H1 T1
                (skipped_cons p "pymupdf" _ [] _ _ [] H2 T2 (skipped_nil p))) as S2.
  destruct (nonempty (stripped_text (pypdf2_outcome env p))) eqn:E3.
  { rewrite <- (value_of_hit _ E3). eexists.
    exact (try_methods_first _ "pypdf2" _ [] p _ _ _ S2 H3 T3). }
  assert (stripped_text (pypdf2_outcome env p) = "") as ->
    by (destruct (stripped_text (pypdf2_outcome env p)); [reflexivity|discriminate]).
  eexists. apply (try_methods_skipped _ p).
  exact (skipped_cons p "pdfplumber" _ _ _ _ _ H1 T1
           (skipped_cons p "pymupdf" _ _ _ _ _ H2 T2
              (skipped_cons p "pypdf2" _ [] _ _ [] H3 T3 (skipped_nil p)))).
Qed.

Lemma first_text_trimmed (env : environment) (p : string) :
  trimmed (first_text env p).
Proof.
  unfold first_text.
  destruct (nonempty _); [apply stripped_text_trimmed|].
  destruct (nonempty _); apply stripped_text_trimmed.
Qed.

(** C8, as the code has it.  On an existing path, when the console
    takes every line and no library call is interrupted, the auto mode
    returns a string: the stripped text of the first of pdfplumber,
    PyMuPDF and PyPDF2, in this order, whose stripped text is not empty
    (a library that raised counting as empty), and the empty string
    when there is none.  The string neither starts nor ends with
    whitespace. *)
Theorem auto_returns_first_text (st : setting) (p : string) (w : world) :
  calm st ->
  path_exists (libs st) p = true ->
  exists w',
    extract_text_g st p "auto" w = (inr (PyStr (first_text (libs st) p)), w')
    /\ trimmed (first_text (libs st) p).
Proof.
  intros Hcalm Hp. destruct (first_text_run (libs st) p Hp) as [out Hrun].
  exists (emit out w). split; [|apply first_text_trimmed].
  rewrite (extract_text_calm st Hcalm). unfold lift. rewrite Hrun. reflexivity.
Qed.

Lemma auto_returns_first_text_witness :
  (calm (quiet fallback_env) /\ path_exists fallback_env "docs/a.pdf" = true)
  /\ first_text fallback_env "docs/a.pdf" = "hi"
  /\ exists w',
       extract_text_g (quiet fallback_env) "docs/a.pdf" "auto" blank_world
       = (inr (PyStr "hi"), w')
       /\ trimmed "hi".
Proof.
  assert (Hcalm : calm (quiet fallback_env)) by (split; reflexivity).
  split; [split; [exact Hcalm|reflexivity]|]. split; [reflexivity|].
  exact (auto_returns_first_text (quiet fallback_env) "docs/a.pdf" blank_world
           Hcalm eq_refl).
Defined.

(** C8 as stated fails: a KeyboardInterrupt met inside pdfplumber ends
    the auto mode, which then returns nothing; so does a console that
    cannot print its first line. *)
Lemma auto_mode_can_raise :
  path_exists primary_env "docs/a.pdf" = true
  /\ extract_text_g (interrupted primary_env) "docs/a.pdf" "auto" blank_world
     = (inl (Base "KeyboardInterrupt"),
        emit [trying_line "pdfplumber"] blank_world)
  /\ extract_text_g (deaf primary_env) "docs/a.pdf" "auto" blank_world
     = (inl (Exc (ValueError "'ascii' codec can't encode character")), blank_world).
Proof. repeat split. Qed.

(** ** The batch call, interruptible *)





(** A console that cannot encode the line "Processing: a.pdf", printed
    outside the [try], ends the batch call with that error; an
    interrupt inside a library ends it as well. *)
Example batch_stopped_by_console :
  extract_from_directory_g (deaf dangling_env) "docs" None blank_world
  = (inl (Exc (ValueError "'ascii' codec can't encode character")), blank_world)
  /\ fst (extract_from_directory_g (interrupted primary_env) "docs" None blank_world)
     = inl (Base "KeyboardInterrupt").
Proof. split; vm_compute; reflexivity. Qed.





